(** * ieos-slack-logger: the log-alert relay and its Slack client

    A shallow embedding of [pubsub_handler.go] and of the Slack client file
    that shares its package ([init], [testSlackAuth], [SendMessage]).

    Go strings and byte slices are sequences of bytes; they are modelled as
    [string] (a list of 8-bit characters) and [list byte].  A Go [error] is
    observed through its [Error()] text only, so it is modelled by that text;
    the [nil] error is [None]. *)

From Stdlib Require Import Ascii String List Bool NArith Lia.
From Stdlib Require Strings.Byte.
From stdpp Require Import base option gmap strings list.

Set Warnings "-register-all,-abstract-large-number".
Local Open Scope string_scope.

(** ** Go values *)

Definition error := string.

(** A Go pair [(value, err)] in which exactly one side is meaningful. *)
Inductive result (A : Type) : Type :=
| Ok (a : A)
| Err (e : error).
Arguments Ok {A} a.
Arguments Err {A} e.

(** What [encoding/json] stores into an [any]: [nil], [bool], [float64],
    [string], [[]any] and [map[string]any].  A number keeps its JSON literal;
    its floating-point value plays no role in this package. *)
Inductive any : Type :=
| ANil
| ABool (b : bool)
| ANumber (literal : string)
| AString (s : string)
| AArray (elems : list any)
| AObject (fields : gmap string any).

(** ** Package [strings] *)

Definition byte_lt (c : ascii) (n : N) : bool := (N_of_ascii c <? n)%N.

Definition is_lower (c : ascii) : bool :=
  (97 <=? N_of_ascii c)%N && (N_of_ascii c <=? 122)%N.

(** [c -= 'a' - 'A'] on a lower-case letter. *)
Definition upper_byte (c : ascii) : ascii :=
  if is_lower c then ascii_of_N (N_of_ascii c - 32) else c.

Fixpoint string_forall (p : ascii -> bool) (s : string) : bool :=
  match s with
  | EmptyString => true
  | String c s' => p c && string_forall p s'
  end.

Fixpoint string_map (f : ascii -> ascii) (s : string) : string :=
  match s with
  | EmptyString => EmptyString
  | String c s' => String (f c) (string_map f s')
  end.

(** [utf8.RuneSelf] is 0x80: bytes below it are single-byte runes. *)
Definition isASCII (s : string) : bool := string_forall (fun c => byte_lt c 128) s.

(** [strings.HasPrefix]. *)
Definition HasPrefix (s pre : string) : bool := String.prefix pre s.

(** [strings.Contains]: [substr] occurs at some offset of [s]. *)
Fixpoint Contains (s substr : string) : bool :=
  String.prefix substr s
  || match s with
     | EmptyString => false
     | String _ s' => Contains s' substr
     end.

Section Strings.

(** [strings.Map(unicode.ToUpper, s)], the path [strings.ToUpper] takes for
    a string holding a byte at or above [utf8.RuneSelf]. *)
Variable unicode_ToUpper : string -> string.

(** [strings.ToUpper]: an ASCII-only string is upper-cased byte by byte. *)
Definition ToUpper (s : string) : string :=
  if isASCII s then string_map upper_byte s else unicode_ToUpper s.

End Strings.

(** ** Package [os] *)

(** [os.Getenv]: the value of the variable, empty when it is not set. *)
Definition Getenv (environ : gmap string string) (key : string) : string :=
  default "" (environ !! key).

(** ** Package [logger]

    The relay imports the repository's [logger] package.  Its source is not
    among the files of this development, so what the relay uses of it is
    modelled from the specification (sections 3, 4.1 and 4.2). *)
Module logging.
(** Modelled from the spec: the severity enum of the missing [logger]
    package, ordered DEBUG < INFO < WARNING < ERROR < CRITICAL. *)
Inductive Severity : Type := Debug | Info | Warning | Error | Critical.
End logging.

Module logger.

(** Modelled from the spec: the recognized options of the missing
    [logger.New] that the relay passes (project id, log name, invoker name,
    common labels, stdout-only). *)
Inductive Option : Type :=
| WithProjectID (id : string)
| WithLogName (name : string)
| WithInvoker (name : string)
| WithCommonLabels (labels : gmap string string)
| WithStdoutOnly.

(** Modelled from the spec: the missing [LoggerConfig], immutable after
    construction; the notifier and the execution-id headers, which the relay
    never sets, are left out. *)
Record LoggerConfig : Type := {
  projectID : option string;
  logName : string;
  invoker : string;
  commonLabels : gmap string string;
  stdoutOnly : bool;
}.

(** Modelled from the spec: what one option does to the configuration. *)
Definition apply (cfg : LoggerConfig) (o : Option) : LoggerConfig :=
  match o with
  | WithProjectID id =>
      {| projectID := Some id; logName := logName cfg; invoker := invoker cfg;
         commonLabels := commonLabels cfg; stdoutOnly := stdoutOnly cfg |}
  | WithLogName n =>
      {| projectID := projectID cfg; logName := n; invoker := invoker cfg;
         commonLabels := commonLabels cfg; stdoutOnly := stdoutOnly cfg |}
  | WithInvoker n =>
      {| projectID := projectID cfg; logName := logName cfg; invoker := n;
         commonLabels := commonLabels cfg; stdoutOnly := stdoutOnly cfg |}
  | WithCommonLabels l =>
      {| projectID := projectID cfg; logName := logName cfg; invoker := invoker cfg;
         commonLabels := l; stdoutOnly := stdoutOnly cfg |}
  | WithStdoutOnly =>
      {| projectID := projectID cfg; logName := logName cfg; invoker := invoker cfg;
         commonLabels := commonLabels cfg; stdoutOnly := true |}
  end.

(** Modelled from the spec: the configuration before any option applies. *)
Definition unconfigured : LoggerConfig :=
  {| projectID := None; logName := ""; invoker := ""; commonLabels := ∅;
     stdoutOnly := false |}.

(** Modelled from the spec: the sink a logger of the missing package writes
    to, the remote service of a project or the local JSON-on-stdout
    fallback. *)
Inductive Sink : Type := Remote (project : string) | Stdout.

(** Modelled from the spec: the structured logger, its configuration and
    the sink it owns. *)
Record CloudLogger : Type := { config : LoggerConfig; sink : Sink }.

(** Modelled from the spec: the missing [CorrelationContext], trace, span
    and execution identifiers, empty when absent. *)
Record CorrelationContext : Type := {
  traceID : string; spanID : string; executionID : string;
}.

(** Modelled from the spec: the request-scoped logger, a view bound to one
    correlation context that holds a reference to its logger. *)
Record RequestLogger : Type := {
  parent : CloudLogger;
  correlation : CorrelationContext;
}.

(** Modelled from the spec: the missing [LogRecord], without its timestamp,
    which is assigned at emission. *)
Record LogRecord : Type := {
  severity : logging.Severity;
  recordLogName : string;
  message : string;
  payload : option any;
  labels : gmap string string;
  context : CorrelationContext;
}.

Section New.
(** Platform auto-detection of the project, and construction of the remote
    client for a project: both belong to the hosting platform. *)
Variable metadata_ProjectID : option string.
Variable logging_NewClient : string -> option error.

(** Modelled from the spec: the body of [logger.New] is missing from the
    verified files.  "Attempts to resolve project id (explicit, then
    environment, then platform auto-detect); if none resolves, or
    stdout-only was requested, falls back to a local JSON-to-stdout sink
    instead of failing. Fails only on unrecoverable sink construction
    errors when a remote sink was required." *)
Definition New (environ : gmap string string) (opts : list Option)
  : result CloudLogger :=
  let cfg := fold_left apply opts unconfigured in
  let resolved :=
    match projectID cfg with
    | Some id => Some id
    | None =>
        match Getenv environ "GOOGLE_CLOUD_PROJECT" with
        | "" => metadata_ProjectID
        | id => Some id
        end
    end in
  if stdoutOnly cfg then Ok {| config := cfg; sink := Stdout |}
  else match resolved with
       | None => Ok {| config := cfg; sink := Stdout |}
       | Some id =>
           match logging_NewClient id with
           | None => Ok {| config := cfg; sink := Remote id |}
           | Some e => Err e
           end
       end.
End New.

(** Modelled from the spec: [ForRequest(ctx, nil)] captures the correlation
    context once; a nil request gives the empty correlation. *)
Definition ForRequest (l : CloudLogger) : RequestLogger :=
  {| parent := l;
     correlation := {| traceID := ""; spanID := ""; executionID := "" |} |}.

(** Modelled from the spec: the record a leveled operation of a bound
    logger emits: fixed severity, the logger's log name and common labels,
    the captured correlation. *)
Definition record (rl : RequestLogger) (sev : logging.Severity)
    (msg : string) (data : option any) : LogRecord :=
  {| severity := sev;
     recordLogName := logName (config (parent rl));
     message := msg;
     payload := data;
     labels := commonLabels (config (parent rl));
     context := correlation rl |}.

End logger.

(** ** Package [service]: process state and trace *)

Module slack.
(** [*slack.Client], as far as the package uses it: the token it was made
    from. *)
Record Client : Type := { token : string }.
Definition New (botToken : string) : Client := {| token := botToken |}.
End slack.

(** PubSubMessage is the payload of a Pub/Sub event. *)
Record PubSubMessage : Type := {
  Data : list Byte.byte;
  Attributes : gmap string string;
}.

(** What the package does, in the order it does it: lines of the standard
    logger, requests to the Slack web API, records handed to a log sink, and
    calls of [SendMessage], the package's message-relay entry point. *)
Inductive Event : Type :=
| Printf (line : string)
| AuthTest (client : slack.Client)
| Emit (to : logger.Sink) (r : logger.LogRecord)
| SendMessageCall (channelID message : string)
| PostMessage (client : slack.Client) (channelID text : string).

(** The package-level variables of the two files, the process environment,
    and the events so far (oldest first). *)
Record Process : Type := {
  environ : gmap string string;
  slackClient : option slack.Client;
  isSlackEnabled : bool;
  loggerInitOnce : bool;
  appLogger : option logger.CloudLogger;
  trace : list Event;
}.

(** A call either returns or panics (a nil pointer is dereferenced). *)
Inductive outcome (A : Type) : Type :=
| Returns (a : A)
| Panics (reason : string).
Arguments Returns {A} a.
Arguments Panics {A} reason.

Definition M (A : Type) : Type := Process -> outcome A * Process.

#[global] Instance M_ret : MRet M := fun A a p => (Returns a, p).
#[global] Instance M_bind : MBind M := fun A B f c p =>
  match c p with
  | (Returns a, p') => f a p'
  | (Panics r, p') => (Panics r, p')
  end.

Definition get : M Process := fun p => (Returns p, p).

Definition record_event (e : Event) : M unit := fun p =>
  (Returns tt,
   {| environ := environ p; slackClient := slackClient p;
      isSlackEnabled := isSlackEnabled p; loggerInitOnce := loggerInitOnce p;
      appLogger := appLogger p; trace := trace p ++ [e] |}).

Definition set_environ (env : gmap string string) : M unit := fun p =>
  (Returns tt,
   {| environ := env; slackClient := slackClient p;
      isSlackEnabled := isSlackEnabled p; loggerInitOnce := loggerInitOnce p;
      appLogger := appLogger p; trace := trace p |}).

Definition set_slackClient (c : option slack.Client) : M unit := fun p =>
  (Returns tt,
   {| environ := environ p; slackClient := c;
      isSlackEnabled := isSlackEnabled p; loggerInitOnce := loggerInitOnce p;
      appLogger := appLogger p; trace := trace p |}).

Definition set_isSlackEnabled (b : bool) : M unit := fun p =>
  (Returns tt,
   {| environ := environ p; slackClient := slackClient p;
      isSlackEnabled := b; loggerInitOnce := loggerInitOnce p;
      appLogger := appLogger p; trace := trace p |}).

Definition set_appLogger (l : option logger.CloudLogger) : M unit := fun p =>
  (Returns tt,
   {| environ := environ p; slackClient := slackClient p;
      isSlackEnabled := isSlackEnabled p; loggerInitOnce := loggerInitOnce p;
      appLogger := l; trace := trace p |}).

Definition set_loggerInitOnce : M unit := fun p =>
  (Returns tt,
   {| environ := environ p; slackClient := slackClient p;
      isSlackEnabled := isSlackEnabled p; loggerInitOnce := true;
      appLogger := appLogger p; trace := trace p |}).

Definition panic {A : Type} (reason : string) : M A := fun p => (Panics reason, p).

(** A line feed, and a double quote. *)
Definition LF : string := String (ascii_of_N 10) EmptyString.
Definition DQ : string := String (ascii_of_N 34) EmptyString.

(** Modelled from the spec: the leveled operations of the missing
    request-scoped logger.  Each emits one record to the sink of the logger
    it is bound to and returns nothing; [Error] takes an error value, which
    is stringified before it enters the payload. *)
Definition emit (rl : logger.RequestLogger) (sev : logging.Severity)
    (msg : string) (data : option any) : M unit :=
  record_event (Emit (logger.sink (logger.parent rl)) (logger.record rl sev msg data)).

Definition reqLog_Info (rl : logger.RequestLogger) (msg : string) (data : option any) :=
  emit rl logging.Info msg data.
Definition reqLog_Warning (rl : logger.RequestLogger) (msg : string) (data : option any) :=
  emit rl logging.Warning msg data.
Definition reqLog_Error (rl : logger.RequestLogger) (msg : string) (err : error) :=
  emit rl logging.Error msg (Some (AString err)).

(** [v.(string)] with the comma-ok form: the zero string for any other value. *)
Definition getString (v : any) : string :=
  match v with
  | AString s => s
  | _ => EmptyString
  end.

(** [payload[key]] on a [map[string]any]: [nil] for a missing key. *)
Definition index (payload : gmap string any) (key : string) : any :=
  default ANil (payload !! key).

Definition string_nonempty (s : string) : bool :=
  match s with
  | EmptyString => false
  | String _ _ => true
  end.

(** The external collaborators of the package: the parts of the Go standard
    library it calls that are not modelled byte for byte, the [.env] loader,
    the Slack web API and the hosting platform.  The answer of a Slack post
    may depend on everything the process did before it. *)
Record Collaborators : Type := {
  unicode_ToUpper : string -> string;
  json_Unmarshal : list Byte.byte -> result (gmap string any);
  json_Marshal : any -> result string;
  godotenv_Load : gmap string string -> gmap string string;
  slack_AuthTest : slack.Client -> option error;
  slack_PostMessage : list Event -> slack.Client -> string -> string -> result string;
  metadata_ProjectID : option string;
  logging_NewClient : string -> option error;
}.

Section Service.

Variable ext : Collaborators.

(** *** pubsub_handler.go *)

Definition relayOptions : list logger.Option :=
  [ logger.WithInvoker "ieos-slack-logs";
    logger.WithLogName "ieos-slack-logs";
    logger.WithCommonLabels {[ "service" := "ieos-slack-logs" ]} ].

Definition logger_New (env : gmap string string) (opts : list logger.Option) :=
  logger.New (metadata_ProjectID ext) (logging_NewClient ext) env opts.

(** getLogger returns a cached Cloud Logger instance.  The body of
    [loggerInitOnce.Do] runs on the first call only; a failed [New] leaves
    a nil pointer. *)
Definition getLogger : M (option logger.CloudLogger) :=
  p ← get;
  (if loggerInitOnce p then mret tt
   else
     let lg :=
       match logger_New (environ p) relayOptions with
       | Ok lg => Some lg
       | Err _ =>
           (* Fallback to stdout-only logger so callers can still log *)
           match logger_New (environ p) (logger.WithStdoutOnly :: relayOptions) with
           | Ok lg => Some lg
           | Err _ => None
           end
       end in
     set_appLogger lg;; set_loggerInitOnce);;
  p' ← get;
  mret (appLogger p').

Definition chooseChannelForSeverity (env : gmap string string) (sev : string) : string :=
  let sev := ToUpper (unicode_ToUpper ext) sev in
  let matched :=
    if existsb (String.eqb sev) ["CRITICAL"; "ALERT"; "EMERGENCY"; "ERROR"] then
      let v := Getenv env "SLACK_ERROR_CHANNEL_ID" in
      if string_nonempty v then Some v else None
    else if existsb (String.eqb sev) ["WARNING"; "NOTICE"] then
      let v := Getenv env "SLACK_WARNING_CHANNEL_ID" in
      if string_nonempty v then Some v else None
    else None in
  match matched with
  | Some v => v
  | None =>
      let v := Getenv env "SLACK_DEFAULT_CHANNEL_ID" in
      if string_nonempty v then v
      else (* last resort: return empty which will surface as validation
              error in SendMessage *)
        EmptyString
  end.

(** *** The Slack client file *)

Definition testSlackAuth : M (option error) :=
  p ← get;
  match slackClient p with
  | None => mret (Some "slack client not initialized")
  | Some c => record_event (AuthTest c);; mret (slack_AuthTest ext c)
  end.

Definition init : M unit :=
  p ← get;
  (* Load .env for local/dev usage; ignore error in serverless *)
  set_environ (godotenv_Load ext (environ p));;
  p ← get;
  let botToken := Getenv (environ p) "SLACK_BOT_TOKEN" in
  if negb (string_nonempty botToken) then
    record_event (Printf "SLACK_BOT_TOKEN environment variable is not set. Slack notifications will be disabled.");;
    set_isSlackEnabled false
  else if negb (HasPrefix botToken "xoxb-") then
    record_event (Printf "SLACK_BOT_TOKEN appears to be invalid (should start with 'xoxb-'). Slack notifications will be disabled.");;
    set_isSlackEnabled false
  else
    set_slackClient (Some (slack.New botToken));;
    r ← testSlackAuth;
    match r with
    | Some err =>
        record_event (Printf ("Slack authentication failed. Slack notifications will be disabled: " ++ err));;
        set_isSlackEnabled false
    | None =>
        set_isSlackEnabled true;;
        record_event (Printf "Slack integration initialized successfully")
    end.

(** SendMessage sends a message to a channel. *)
Definition SendMessage (channelID message : string) : M (result string) :=
  record_event (SendMessageCall channelID message);;
  p ← get;
  if negb (isSlackEnabled p) then
    mret (Err "slack is not properly configured")
  else if negb (string_nonempty channelID) then
    mret (Err "channel ID is required")
  else
    match slackClient p with
    | None => panic "nil *slack.Client"
    | Some c =>
        record_event (PostMessage c channelID message);;
        match slack_PostMessage ext (trace p) c channelID message with
        | Err err =>
            if Contains err "invalid_auth" then
              mret (Err "slack authentication failed - please check your bot token and permissions")
            else if Contains err "channel_not_found" then
              mret (Err "slack channel not found - please check your channel ID")
            else if Contains err "not_in_channel" then
              mret (Err "slack bot is not in the specified channel - please invite the bot to the channel")
            else
              mret (Err ("failed to send slack message: " ++ err))
        | Ok timestamp => mret (Ok timestamp)
        end
    end.

(** *** pubsub_handler.go, the handler *)

(** The severity the handler works with once the [DEFAULT] substitution of
    lines 71-73 is done. *)
Definition severityOf (payload : gmap string any) : string :=
  let severity := getString (index payload "severity") in
  if string_nonempty severity then severity else "DEFAULT".

(** The concise message: what the [strings.Builder] holds at line 85. *)
Definition messageOf (payload : gmap string any) : string :=
  let severity := severityOf payload in
  let logName := getString (index payload "logName") in
  let text := getString (index payload "textPayload") in
  let b := "[" ++ severity ++ "] " ++ logName in
  let b := if string_nonempty text then b ++ LF ++ text else b in
  (* If jsonPayload exists, include a compact excerpt *)
  match payload !! "jsonPayload" with
  | Some ANil | None => b
  | Some jp =>
      match json_Marshal ext jp with
      | Ok compact => b ++ LF ++ "json: " ++ compact
      | Err _ => b
      end
  end.

(** HandleLogAlert parses the LogEntry JSON and sends a Slack message. *)
Definition HandleLogAlert (m : PubSubMessage) : M (option error) :=
  lg ← getLogger;
  match lg with
  | None => panic "nil *logger.CloudLogger"
  | Some lg =>
      let reqLog := logger.ForRequest lg in
      if Nat.eqb (length (Data m)) 0 then
        reqLog_Warning reqLog "empty pubsub data" None;;
        mret (Some "empty pubsub data")
      else
        match json_Unmarshal ext (Data m) with
        | Err err =>
            reqLog_Error reqLog "failed to parse pubsub json" err;;
            mret (Some err)
        | Ok payload =>
            let severity := severityOf payload in
            let message := messageOf payload in
            p ← get;
            let channelID := chooseChannelForSeverity (environ p) severity in
            r ← SendMessage channelID message;
            match r with
            | Err err =>
                reqLog_Error reqLog "slack send failed" err;;
                mret (Some err)
            | Ok ts =>
                reqLog_Info reqLog "slack message sent"
                  (Some (AObject {[ "ts" := AString ts; "channel" := AString channelID ]}));;
                mret None
            end
        end
  end.

(** The process as the Go runtime starts it: every package variable holds
    its zero value; then [init] runs. *)
Definition start (env : gmap string string) : Process :=
  {| environ := env; slackClient := None; isSlackEnabled := false;
     loggerInitOnce := false; appLogger := None; trace := [] |}.

Definition boot (env : gmap string string) : Process := snd (init (start env)).

(** No package variable that is dereferenced holds nil: an enabled Slack
    integration has its client, a logger cache that was filled holds a
    logger. *)
Definition consistent (p : Process) : bool :=
  (negb (isSlackEnabled p) || bool_decide (is_Some (slackClient p)))
  && (negb (loggerInitOnce p) || bool_decide (is_Some (appLogger p))).

End Service.

(** ** A reference JSON codec

    [encoding/json] is a collaborator above: every theorem holds for whatever
    it answers.  To run the handler on concrete payloads, this module decodes
    JSON text (RFC 8259) the way [json.Unmarshal] fills a [map[string]any]:
    a repeated key keeps its last value, [null] leaves the map nil, any other
    top-level value is an error.  Input is taken to be valid UTF-8. *)
Module jsonref.

Definition is_ws (c : ascii) : bool :=
  let n := N_of_ascii c in
  ((n =? 32) || (n =? 9) || (n =? 10) || (n =? 13))%N.

Definition is_digit (c : ascii) : bool :=
  (48 <=? N_of_ascii c)%N && (N_of_ascii c <=? 57)%N.

Definition is_char (n : N) (c : ascii) : bool := (N_of_ascii c =? n)%N.

Fixpoint skip_ws (s : string) : string :=
  match s with
  | String c s' => if is_ws c then skip_ws s' else s
  | EmptyString => s
  end.

Definition hex_val (c : ascii) : option N :=
  let n := N_of_ascii c in
  if is_digit c then Some (n - 48)%N
  else if ((97 <=? n) && (n <=? 102))%N then Some (n - 87)%N
  else if ((65 <=? n) && (n <=? 70))%N then Some (n - 55)%N
  else None.

Definition hex4 (a b c d : ascii) : option N :=
  x ← hex_val a; y ← hex_val b; z ← hex_val c; w ← hex_val d;
  Some (((x * 16 + y) * 16 + z) * 16 + w)%N.

Definition byte_string (n : N) : string := String (ascii_of_N n) EmptyString.

(** UTF-8 encoding of a code point; a surrogate becomes U+FFFD. *)
Definition utf8 (cp : N) : string :=
  let cp := if ((55296 <=? cp) && (cp <=? 57343))%N then 65533%N else cp in
  if (cp <? 128)%N then byte_string cp
  else if (cp <? 2048)%N then
    byte_string (192 + cp / 64) ++ byte_string (128 + cp mod 64)
  else if (cp <? 65536)%N then
    byte_string (224 + cp / 4096) ++ byte_string (128 + (cp / 64) mod 64)
    ++ byte_string (128 + cp mod 64)
  else
    byte_string (240 + cp / 262144) ++ byte_string (128 + (cp / 4096) mod 64)
    ++ byte_string (128 + (cp / 64) mod 64) ++ byte_string (128 + cp mod 64).

Definition simple_escape (c : ascii) : option string :=
  let n := N_of_ascii c in
  if ((n =? 34) || (n =? 92) || (n =? 47))%N then Some (byte_string n)
  else if (n =? 98)%N then Some (byte_string 8)
  else if (n =? 102)%N then Some (byte_string 12)
  else if (n =? 110)%N then Some (byte_string 10)
  else if (n =? 114)%N then Some (byte_string 13)
  else if (n =? 116)%N then Some (byte_string 9)
  else None.

(** The rest of a string literal, after its opening quote: the decoded
    text and what follows the closing quote. *)
Fixpoint string_body (s : string) : option (string * string) :=
  match s with
  | EmptyString => None
  | String c r =>
      if is_char 34 c then Some (EmptyString, r)
      else if is_char 92 c then
        match r with
        | String e r1 =>
            if is_char 117 e then
              match r1 with
              | String h1 (String h2 (String h3 (String h4 r2))) =>
                  hi ← hex4 h1 h2 h3 h4;
                  match r2 with
                  | String b (String u (String l1 (String l2 (String l3 (String l4 r3))))) =>
                      match hex4 l1 l2 l3 l4 with
                      | Some lo =>
                          if is_char 92 b && is_char 117 u
                             && (55296 <=? hi)%N && (hi <? 56320)%N
                             && (56320 <=? lo)%N && (lo <? 57344)%N
                          then
                            '(t, rest) ← string_body r3;
                            Some (utf8 (65536 + (hi - 55296) * 1024 + (lo - 56320)) ++ t, rest)
                          else
                            '(t, rest) ← string_body r2; Some (utf8 hi ++ t, rest)
                      | None => '(t, rest) ← string_body r2; Some (utf8 hi ++ t, rest)
                      end
                  | _ => '(t, rest) ← string_body r2; Some (utf8 hi ++ t, rest)
                  end
              | _ => None
              end
            else
              x ← simple_escape e;
              '(t, rest) ← string_body r1; Some (x ++ t, rest)
        | EmptyString => None
        end
      else if byte_lt c 32 then None
      else '(t, rest) ← string_body r; Some (String c t, rest)
  end.

Fixpoint digits (s : string) : string * string :=
  match s with
  | String c r =>
      if is_digit c then let '(d, rest) := digits r in (String c d, rest)
      else (EmptyString, s)
  | EmptyString => (EmptyString, s)
  end.

(** A number literal: an optional minus, an integer part without a leading
    zero (unless it is the single digit 0), an optional fraction, an
    optional exponent. *)
Definition number (s : string) : option (string * string) :=
  let '(sign, s1) :=
    match s with
    | String c r => if is_char 45 c then (byte_string 45, r) else (EmptyString, s)
    | _ => (EmptyString, s)
    end in
  let '(int, s2) := digits s1 in
  let int_ok :=
    match int with
    | EmptyString => false
    | String c EmptyString => true
    | String c _ => negb (is_char 48 c)
    end in
  if negb int_ok then None
  else
    frac ← match s2 with
           | String c r =>
               if is_char 46 c then
                 let '(d, rest) := digits r in
                 if string_nonempty d then Some (String c d, rest) else None
               else Some (EmptyString, s2)
           | _ => Some (EmptyString, s2)
           end;
    let '(fr, s3) := frac in
    ex ← match s3 with
         | String c r =>
             if is_char 101 c || is_char 69 c then
               let '(sg, r1) :=
                 match r with
                 | String g r' =>
                     if is_char 43 g || is_char 45 g then (String g EmptyString, r')
                     else (EmptyString, r)
                 | _ => (EmptyString, r)
                 end in
               let '(d, rest) := digits r1 in
               if string_nonempty d then Some (String c (sg ++ d), rest) else None
             else Some (EmptyString, s3)
         | _ => Some (EmptyString, s3)
         end;
    let '(e, s4) := ex in
    Some (sign ++ int ++ fr ++ e, s4).

Definition strip_prefix (pre s : string) : option string :=
  if String.prefix pre s
  then Some (String.substring (String.length pre) (String.length s - String.length pre) s)
  else None.

(** The members of an object after its opening brace, and the elements of
    an array after its opening bracket, given the parser of one value. *)
Fixpoint members (fuel : nat) (value : string -> option (any * string))
    (acc : gmap string any) (s : string) : option (gmap string any * string) :=
  match fuel with
  | O => None
  | S fuel =>
      match skip_ws s with
      | String q r =>
          if is_char 34 q then
            '(k, r1) ← string_body r;
            match skip_ws r1 with
            | String c r2 =>
                if is_char 58 c then
                  '(v, r3) ← value r2;
                  match skip_ws r3 with
                  | String d r4 =>
                      if is_char 44 d then members fuel value (<[k:=v]> acc) r4
                      else if is_char 125 d then Some (<[k:=v]> acc, r4)
                      else None
                  | EmptyString => None
                  end
                else None
            | EmptyString => None
            end
          else None
      | EmptyString => None
      end
  end.

Fixpoint elements (fuel : nat) (value : string -> option (any * string))
    (acc : list any) (s : string) : option (list any * string) :=
  match fuel with
  | O => None
  | S fuel =>
      '(v, r) ← value s;
      match skip_ws r with
      | String d r' =>
          if is_char 44 d then elements fuel value (acc ++ [v])%list r'
          else if is_char 93 d then Some ((acc ++ [v])%list, r')
          else None
      | EmptyString => None
      end
  end.

Fixpoint value (fuel : nat) (s : string) : option (any * string) :=
  match fuel with
  | O => None
  | S fuel =>
      match skip_ws s with
      | EmptyString => None
      | String c r as s0 =>
          if is_char 123 c then
            match skip_ws r with
            | String d r' =>
                if is_char 125 d then Some (AObject ∅, r')
                else '(m, rest) ← members fuel (value fuel) ∅ r; Some (AObject m, rest)
            | EmptyString => None
            end
          else if is_char 91 c then
            match skip_ws r with
            | String d r' =>
                if is_char 93 d then Some (AArray [], r')
                else '(l, rest) ← elements fuel (value fuel) [] r; Some (AArray l, rest)
            | EmptyString => None
            end
          else if is_char 34 c then
            '(t, rest) ← string_body r; Some (AString t, rest)
          else
            match strip_prefix "true" s0, strip_prefix "false" s0, strip_prefix "null" s0 with
            | Some rest, _, _ => Some (ABool true, rest)
            | _, Some rest, _ => Some (ABool false, rest)
            | _, _, Some rest => Some (ANil, rest)
            | None, None, None => '(n, rest) ← number s0; Some (ANumber n, rest)
            end
      end
  end.

(** [json.Unmarshal(data, &payload)] for [payload] a nil [map[string]any]. *)
Definition Unmarshal (data : list Byte.byte) : result (gmap string any) :=
  let s := string_of_list_byte data in
  match value (S (String.length s)) s with
  | Some (v, rest) =>
      match skip_ws rest with
      | EmptyString =>
          match v with
          | AObject m => Ok m
          | ANil => Ok ∅
          | _ => Err "json: cannot unmarshal into Go value of type map[string]interface {}"
          end
      | String _ _ => Err "invalid character after top-level value"
      end
  | None =>
      match skip_ws s with
      | EmptyString => Err "unexpected end of JSON input"
      | String _ _ => Err "invalid character in JSON input"
      end
  end.

(** Bytes [json.Marshal] copies into a string literal unescaped. *)
Definition plain (c : ascii) : bool :=
  let n := N_of_ascii c in
  ((32 <=? n) && (n <? 127) && negb (n =? 34) && negb (n =? 92)
   && negb (n =? 60) && negb (n =? 62) && negb (n =? 38))%N.

Definition quoted (s : string) : option string :=
  if string_forall plain s then Some (DQ ++ s ++ DQ) else None.

(** Integer literals a [float64] holds exactly and prints back as written. *)
Definition plain_integer (l : string) : bool :=
  let body :=
    match l with
    | String c r => if is_char 45 c then r else l
    | EmptyString => l
    end in
  string_nonempty body && string_forall is_digit body
  && (String.length body <=? 15)%nat.

Fixpoint insert_sorted {A : Type} (kv : string * A) (l : list (string * A)) :=
  match l with
  | [] => [kv]
  | kv' :: l' =>
      if String.leb (fst kv) (fst kv') then kv :: l
      else kv' :: insert_sorted kv l'
  end.

Fixpoint join (sep : string) (l : list string) : string :=
  match l with
  | [] => EmptyString
  | [x] => x
  | x :: l' => x ++ sep ++ join sep l'
  end.

(** The compact encoding [json.Marshal] gives a decoded value: object keys
    in byte order, no insignificant space.  This reference covers strings
    that need no escaping and plain integers; it reports an error on
    anything else rather than guess the library's escaping and float
    formatting. *)
Fixpoint encode (fuel : nat) (v : any) : option string :=
  match fuel with
  | O => None
  | S fuel =>
      match v with
      | ANil => Some "null"
      | ABool b => Some (if b then "true" else "false")
      | ANumber l => if plain_integer l then Some l else None
      | AString s => quoted s
      | AArray l =>
          items ← mapM (encode fuel) l;
          Some ("[" ++ join "," items ++ "]")
      | AObject m =>
          items ← mapM (fun kv : string * any =>
                          k ← quoted (fst kv); x ← encode fuel (snd kv);
                          Some (k ++ ":" ++ x))
                       (foldr insert_sorted [] (map_to_list m));
          Some ("{" ++ join "," items ++ "}")
      end
  end.

Definition Marshal (v : any) : result string :=
  match encode 10001 v with
  | Some s => Ok s
  | None => Err "json: value outside the reference encoder"
  end.

End jsonref.

Definition bytes (s : string) : list Byte.byte := list_byte_of_string s.

(** Text written with apostrophes where the JSON has double quotes. *)
Definition json_text (s : string) : list Byte.byte :=
  bytes (string_map (fun c => if Ascii.eqb c "'" then ascii_of_N 34 else c) s).

(** ** The specification's vocabulary *)

(** The severity-to-channel lookup table of the specification, read on the
    upper-cased severity. *)
Inductive Bucket : Type := ErrorBucket | WarningBucket | DefaultBucket.

Definition error_severities : list string := ["CRITICAL"; "ALERT"; "EMERGENCY"; "ERROR"].
Definition warning_severities : list string := ["WARNING"; "NOTICE"].

Definition bucket_of (upper : string) : Bucket :=
  if bool_decide (upper ∈ error_severities) then ErrorBucket
  else if bool_decide (upper ∈ warning_severities) then WarningBucket
  else DefaultBucket.

Definition default_destination (env : gmap string string) : string :=
  Getenv env "SLACK_DEFAULT_CHANNEL_ID".

(** A bucket's own destination when it is set, the default one otherwise. *)
Definition destination (env : gmap string string) (b : Bucket) : string :=
  let own :=
    match b with
    | ErrorBucket => Getenv env "SLACK_ERROR_CHANNEL_ID"
    | WarningBucket => Getenv env "SLACK_WARNING_CHANNEL_ID"
    | DefaultBucket => EmptyString
    end in
  if bool_decide (own = EmptyString) then default_destination env else own.

(** [c] is a lower-case ASCII letter and [d] the same letter in upper case. *)
Definition case_pair (c d : ascii) : bool :=
  is_lower c && (N_of_ascii c =? N_of_ascii d + 32)%N.

(** Equality of two strings up to the case of their ASCII letters. *)
Fixpoint fold_eq (s t : string) : bool :=
  match s, t with
  | EmptyString, EmptyString => true
  | String c s', String d t' =>
      (Ascii.eqb c d || case_pair c d || case_pair d c) && fold_eq s' t'
  | _, _ => false
  end.

(** ** Observations on runs *)

(** [p] once the logger cache holds [lg]. *)
Definition cache (lg : logger.CloudLogger) (p : Process) : Process :=
  {| environ := environ p; slackClient := slackClient p;
     isSlackEnabled := isSlackEnabled p; loggerInitOnce := true;
     appLogger := Some lg; trace := trace p |}.

(** [p] after the events [evs], and nothing else, happened. *)
Definition after (p : Process) (evs : list Event) : Process :=
  {| environ := environ p; slackClient := slackClient p;
     isSlackEnabled := isSlackEnabled p; loggerInitOnce := loggerInitOnce p;
     appLogger := appLogger p; trace := (trace p ++ evs)%list |}.

(** The record a request-scoped logger of [lg] hands to the sink of [lg]. *)
Definition logged (lg : logger.CloudLogger) (sev : logging.Severity)
    (msg : string) (data : option any) : Event :=
  Emit (logger.sink lg) (logger.record (logger.ForRequest lg) sev msg data).

(** The calls of [SendMessage] and the requests to post found in a trace. *)
Definition sends (t : list Event) : list (string * string) :=
  omap (fun e => match e with SendMessageCall c m => Some (c, m) | _ => None end) t.

Definition posts (t : list Event) : list (slack.Client * string * string) :=
  omap (fun e => match e with PostMessage c ch m => Some (c, ch, m) | _ => None end) t.

(** The human-readable texts of the recognized delivery errors, keyed by the
    marker looked for in the error of the web API. *)
Definition recognized : list (string * string) :=
  [ ("invalid_auth",
     "slack authentication failed - please check your bot token and permissions");
    ("channel_not_found",
     "slack channel not found - please check your channel ID");
    ("not_in_channel",
     "slack bot is not in the specified channel - please invite the bot to the channel") ].

Definition deliveryError (e : error) : error :=
  match List.find (fun kv => Contains e (fst kv)) recognized with
  | Some kv => snd kv
  | None => "failed to send slack message: " ++ e
  end.

Section Observations.

Variable ext : Collaborators.

(** No destination channel resolves for the payload of [m]: it decodes, and
    the channel chosen for its severity is empty. *)
Definition unresolved (m : PubSubMessage) (p : Process) (payload : gmap string any) : Prop :=
  Data m <> []
  /\ json_Unmarshal ext (Data m) = Ok payload
  /\ chooseChannelForSeverity ext (environ p) (severityOf payload) = EmptyString.

(** The empty destination reaches [SendMessage], whose validation rejects
    it, and that error is what the handler returns. *)
Definition rejected_by_validation (m : PubSubMessage) (p : Process)
    (payload : gmap string any) : Prop :=
  exists q,
    HandleLogAlert ext m p = (Returns (Some "channel ID is required"), q)
    /\ sends (trace q) = (sends (trace p) ++ [(EmptyString, messageOf ext payload)])%list
    /\ posts (trace q) = posts (trace p).

(** The call of [SendMessage] a run of the handler on [m] makes, and the
    post it leads to: both are functions of the payload, of the environment
    and of what [init] left in the Slack variables. *)
Definition attempted (m : PubSubMessage) (p : Process) : list (string * string) :=
  if Nat.eqb (length (Data m)) 0 then []
  else
    match json_Unmarshal ext (Data m) with
    | Err _ => []
    | Ok payload =>
        [ (chooseChannelForSeverity ext (environ p) (severityOf payload),
           messageOf ext payload) ]
    end.

Definition requested (m : PubSubMessage) (p : Process)
  : list (slack.Client * string * string) :=
  '(channelID, message) ← attempted m p;
  if isSlackEnabled p && string_nonempty channelID then
    match slackClient p with
    | Some c => [ (c, channelID, message) ]
    | None => []
    end
  else [].

(** The calls the hosting runtime and the package make after [init]. *)
Inductive Call : Type :=
| CallSendMessage (channelID message : string)
| CallHandleLogAlert (m : PubSubMessage).

Definition call (c : Call) (p : Process) : Process :=
  match c with
  | CallSendMessage channelID message => snd (SendMessage ext channelID message p)
  | CallHandleLogAlert m => snd (HandleLogAlert ext m p)
  end.

Definition run (calls : list Call) (p : Process) : Process :=
  fold_left (fun p c => call c p) calls p.

End Observations.

(** ** A concrete world to run the package in *)

(** Collaborators for concrete runs: ASCII-only upper-casing needs no Unicode
    table (the identity stands in), JSON goes through the reference codec,
    there is no [.env] file, no platform project, and Slack answers as
    [post] says. *)
Definition world (auth : option error)
    (post : list Event -> slack.Client -> string -> string -> result string)
  : Collaborators :=
  {| unicode_ToUpper := fun s => s;
     json_Unmarshal := jsonref.Unmarshal;
     json_Marshal := jsonref.Marshal;
     godotenv_Load := fun env => env;
     slack_AuthTest := fun _ => auth;
     slack_PostMessage := post;
     metadata_ProjectID := None;
     logging_NewClient := fun _ => None |}.

Definition delivered : list Event -> slack.Client -> string -> string -> result string :=
  fun _ _ _ _ => Ok "1700000000.000100".

Definition env1 : gmap string string :=
  {[ "SLACK_BOT_TOKEN" := "xoxb-1"; "SLACK_ERROR_CHANNEL_ID" := "C1" ]}.

Definition scenario : PubSubMessage :=
  {| Data := json_text "{'severity':'ERROR','logName':'projects/p/logs/l','textPayload':'boom'}";
     Attributes := ∅ |}.

(** The scenario of the specification: severity ERROR, a log name, a text
    payload, no structured payload. *)
Definition scenario_payload : gmap string any :=
  {[ "severity" := AString "ERROR";
     "logName" := AString "projects/p/logs/l";
     "textPayload" := AString "boom" ]}.

Definition scenario_text : string := "[ERROR] projects/p/logs/l" ++ LF ++ "boom".

Definition failing (e : error) : list Event -> slack.Client -> string -> string -> result string :=
  fun _ _ _ _ => Err e.

(** Slack enabled, the error destination set. *)
Definition w_ok : Collaborators := world None delivered.
Definition p_ok : Process := boot w_ok env1.

(** Slack enabled, no destination set at all. *)
Definition env_no_channel : gmap string string := {[ "SLACK_BOT_TOKEN" := "xoxb-1" ]}.
Definition p_no_channel : Process := boot w_ok env_no_channel.

(** No bot token: Slack disabled, and no destination set either. *)
Definition p_disabled : Process := boot w_ok ∅.

Definition garbled : PubSubMessage :=
  {| Data := json_text "{'severity':"; Attributes := ∅ |}.

Definition client1 : slack.Client := slack.New "xoxb-1".

Definition w_not_found : Collaborators := world None (failing "channel_not_found").
Definition p_not_found : Process := boot w_not_found env1.

Definition structured_payload : gmap string any :=
  {[ "severity" := AString "WARNING";
     "logName" := AString "l";
     "textPayload" := AString "disk";
     "jsonPayload" := AObject {[ "code" := ANumber "7" ]} ]}.


Definition w_rejected : Collaborators := world (Some "invalid_auth") delivered.

(** All three destinations set. *)
Definition env3 : gmap string string :=
  {[ "SLACK_BOT_TOKEN" := "xoxb-1";
     "SLACK_ERROR_CHANNEL_ID" := "CE";
     "SLACK_WARNING_CHANNEL_ID" := "CW";
     "SLACK_DEFAULT_CHANNEL_ID" := "CD" ]}.

Definition empty_event : PubSubMessage := {| Data := []; Attributes := ∅ |}.

Definition null_event : PubSubMessage := {| Data := json_text "null"; Attributes := ∅ |}.

(** ** More observations *)

(** The records handed to a sink, the authentication requests and the lines
    of the standard logger found in a trace. *)
Definition emits (t : list Event) : list (logger.Sink * logger.LogRecord) :=
  omap (fun e => match e with Emit to r => Some (to, r) | _ => None end) t.

Definition authTests (t : list Event) : list slack.Client :=
  omap (fun e => match e with AuthTest c => Some c | _ => None end) t.

Definition printed (t : list Event) : list string :=
  omap (fun e => match e with Printf l => Some l | _ => None end) t.

(** [p] once [loggerInitOnce.Do] has run and left [l] in [appLogger]. *)
Definition initialized (l : option logger.CloudLogger) (p : Process) : Process :=
  {| environ := environ p; slackClient := slackClient p;
     isSlackEnabled := isSlackEnabled p; loggerInitOnce := true;
     appLogger := l; trace := trace p |}.

(** The four keys of a payload the handler looks at. *)
Definition payload_keys : list string :=
  ["severity"; "logName"; "textPayload"; "jsonPayload"].

Section MoreObservations.

Variable ext : Collaborators.

(** What the body of [loggerInitOnce.Do] leaves in [appLogger]. *)
Definition constructed (env : gmap string string) : option logger.CloudLogger :=
  match logger_New ext env relayOptions with
  | Ok lg => Some lg
  | Err _ =>
      match logger_New ext env (logger.WithStdoutOnly :: relayOptions) with
      | Ok lg => Some lg
      | Err _ => None
      end
  end.

(** The token [init] reads, once the [.env] file is loaded. *)
Definition botToken (env : gmap string string) : string :=
  Getenv (godotenv_Load ext env) "SLACK_BOT_TOKEN".

(** The token is present, has the bot prefix and passes the authentication
    test. *)
Definition token_accepted (env : gmap string string) : bool :=
  string_nonempty (botToken env)
  && HasPrefix (botToken env) "xoxb-"
  && bool_decide (slack_AuthTest ext (slack.New (botToken env)) = None).

End MoreObservations.

(** Further concrete inputs. *)
Definition p_all : Process := boot w_ok env3.

Definition blank_severity : gmap string any :=
  {[ "severity" := AString EmptyString; "logName" := AString "l" ]}.

Definition session : list Call :=
  [ CallHandleLogAlert scenario; CallSendMessage "C1" "ping"; CallHandleLogAlert garbled ].

(** * Properties *)

(** ** Strings *)

Lemma string_nonempty_false (s : string) : string_nonempty s = false <-> s = EmptyString.
Proof. destruct s; simpl; split; congruence. Qed.

Lemma string_nonempty_true (s : string) : string_nonempty s = true <-> s <> EmptyString.
Proof. destruct s; simpl; split; congruence. Qed.

Lemma append_cons (c : ascii) (s t : string) : String c s ++ t = String c (s ++ t).
Proof. reflexivity. Qed.

Lemma append_nil_r (s : string) : s ++ EmptyString = s.
Proof. induction s as [|c s IH]; [reflexivity|]. now rewrite append_cons, IH. Qed.

Lemma append_assoc (s t u : string) : (s ++ t) ++ u = s ++ t ++ u.
Proof. induction s as [|c s IH]; [reflexivity|]. now rewrite !append_cons, IH. Qed.


Lemma existsb_eqb_elem_of (x : string) (l : list string) :
  existsb (String.eqb x) l = bool_decide (x ∈ l).
Proof.
  induction l as [|y l IH].
  - symmetry. apply bool_decide_eq_false. apply not_elem_of_nil.
  - cbn [existsb]. rewrite IH. destruct (String.eqb_spec x y) as [->|Hne].
    + symmetry. apply bool_decide_eq_true. apply elem_of_cons. now left.
    + apply bool_decide_ext. rewrite elem_of_cons. tauto.
Qed.

Lemma fold_eq_sym (s t : string) : fold_eq s t = fold_eq t s.
Proof.
  revert t. induction s as [|c s IH]; intros [|d t]; simpl; try reflexivity.
  rewrite IH, (Ascii.eqb_sym c d).
  now destruct (Ascii.eqb d c), (case_pair c d), (case_pair d c).
Qed.

Lemma case_pair_upper (c d : ascii) :
  case_pair c d = true -> upper_byte c = d /\ upper_byte d = d /\ byte_lt c 128 = true /\ byte_lt d 128 = true.
Proof.
  unfold case_pair, upper_byte, is_lower, byte_lt.
  intros H. apply andb_prop in H as [Hlow Heq].
  rewrite Hlow.
  apply andb_prop in Hlow as [H1 H2].
  apply N.leb_le in H1, H2. apply N.eqb_eq in Heq.
  assert (Hd : (N_of_ascii c - 32 = N_of_ascii d)%N) by lia.
  rewrite Hd, ascii_N_embedding.
  repeat split.
  - destruct (97 <=? N_of_ascii d)%N eqn:E; [|reflexivity].
    apply N.leb_le in E. lia.
  - apply N.ltb_lt. lia.
  - apply N.ltb_lt. lia.
Qed.

Lemma fold_eq_upper (s t : string) :
  fold_eq s t = true -> isASCII s = true ->
  isASCII t = true /\ string_map upper_byte s = string_map upper_byte t.
Proof.
  revert t. induction s as [|c s IH]; intros [|d t]; simpl; try discriminate.
  - auto.
  - intros H Hs. apply andb_prop in H as [Hcd Hst].
    unfold isASCII in *. simpl in *.
    apply andb_prop in Hs as [Hc Hs].
    destruct (IH t Hst Hs) as [Ht Hmap].
    rewrite Hmap.
    apply orb_prop in Hcd as [Hcd|Hcd]; [apply orb_prop in Hcd as [Hcd|Hcd]|].
    + apply Ascii.eqb_eq in Hcd. subst d. rewrite Hc, Ht. auto.
    + destruct (case_pair_upper _ _ Hcd) as (E1 & E2 & _ & Hd).
      rewrite Hd, Ht, E1, E2. auto.
    + destruct (case_pair_upper _ _ Hcd) as (E1 & E2 & Hd & _).
      rewrite Hd, Ht, E1, E2. auto.
Qed.

Lemma fold_eq_upper_self (s : string) :
  isASCII s = true -> fold_eq s (string_map upper_byte s) = true.
Proof.
  unfold isASCII. induction s as [|c s IH]; [reflexivity|].
  cbn [string_forall string_map fold_eq]. intros H.
  apply andb_prop in H as [Hc Hs]. rewrite (IH Hs), andb_true_r.
  unfold upper_byte, case_pair. destruct (is_lower c) eqn:Hlow.
  - apply orb_true_intro. left. apply orb_true_intro. right.
    cbn [andb]. apply N.eqb_eq. rewrite N_ascii_embedding.
    + unfold is_lower in Hlow. apply andb_prop in Hlow as [H1 _].
      apply N.leb_le in H1. lia.
    + unfold byte_lt in Hc. apply N.ltb_lt in Hc. lia.
  - now rewrite Ascii.eqb_refl.
Qed.

Lemma ToUpper_fold_eq (u : string -> string) (s t : string) :
  isASCII s = true -> fold_eq s t = true -> ToUpper u s = ToUpper u t.
Proof.
  intros Hs Hst. destruct (fold_eq_upper _ _ Hst Hs) as [Ht Hmap].
  unfold ToUpper. now rewrite Hs, Ht.
Qed.

(** ** Channel selection *)

Section Channel.

Variable ext : Collaborators.

Lemma chooseChannelForSeverity_table (env : gmap string string) (sev : string) :
  chooseChannelForSeverity ext env sev
  = destination env (bucket_of (ToUpper (unicode_ToUpper ext) sev)).
Proof.
  unfold chooseChannelForSeverity, destination, bucket_of, default_destination.
  rewrite !existsb_eqb_elem_of.
  fold error_severities warning_severities.
  set (up := ToUpper (unicode_ToUpper ext) sev).
  destruct (bool_decide (up ∈ error_severities)).
  - destruct (Getenv env "SLACK_ERROR_CHANNEL_ID") as [|c r] eqn:E; simpl.
    + now destruct (Getenv env "SLACK_DEFAULT_CHANNEL_ID").
    + reflexivity.
  - destruct (bool_decide (up ∈ warning_severities)).
    + destruct (Getenv env "SLACK_WARNING_CHANNEL_ID") as [|c r] eqn:E; simpl.
      * now destruct (Getenv env "SLACK_DEFAULT_CHANNEL_ID").
      * reflexivity.
    + simpl. now destruct (Getenv env "SLACK_DEFAULT_CHANNEL_ID").
Qed.

(** C1. Channel selection follows the bucket table read on the upper-cased
    severity: the error severities go to the error destination, the warning
    severities to the warning destination, each falling back to the default
    destination when its own is unset, and every other severity goes to the
    default destination; two severities that differ only in the case of
    their ASCII letters select the same channel. *)
Theorem chooseChannelForSeverity_buckets :
  (forall env sev,
      chooseChannelForSeverity ext env sev
      = destination env (bucket_of (ToUpper (unicode_ToUpper ext) sev)))
  /\ (forall env sev name,
        fold_eq sev name = true ->
        (name ∈ error_severities ->
         chooseChannelForSeverity ext env sev = destination env ErrorBucket)
        /\ (name ∈ warning_severities ->
            chooseChannelForSeverity ext env sev = destination env WarningBucket))
  /\ (forall env sev,
        ToUpper (unicode_ToUpper ext) sev ∉ (error_severities ++ warning_severities)%list ->
        chooseChannelForSeverity ext env sev = default_destination env)
  /\ (forall env s t,
        isASCII s = true -> fold_eq s t = true ->
        chooseChannelForSeverity ext env s = chooseChannelForSeverity ext env t)
  /\ (forall env sev,
        isASCII sev = true ->
        (forall name, name ∈ (error_severities ++ warning_severities)%list ->
                      fold_eq sev name = false) ->
        chooseChannelForSeverity ext env sev = default_destination env).
Proof.
  assert (Hother : forall env sev,
            ToUpper (unicode_ToUpper ext) sev
              ∉ (error_severities ++ warning_severities)%list ->
            chooseChannelForSeverity ext env sev = default_destination env).
  { intros env sev Hnot. rewrite chooseChannelForSeverity_table.
    unfold bucket_of.
    rewrite elem_of_app in Hnot.
    rewrite !bool_decide_eq_false_2 by tauto.
    unfold destination. now rewrite bool_decide_eq_true_2. }
  split; [apply chooseChannelForSeverity_table|].
  split; [|split; [exact Hother|split]].
  - intros env sev name Hfold.
    assert (Hup : forall n, n = name -> isASCII n = true ->
              ToUpper (unicode_ToUpper ext) sev = ToUpper (unicode_ToUpper ext) n).
    { intros n -> Hn. symmetry. apply ToUpper_fold_eq; [exact Hn|].
      now rewrite fold_eq_sym. }
    rewrite chooseChannelForSeverity_table.
    split; intros Hin;
      repeat (apply elem_of_cons in Hin as [Hin|Hin];
              [rewrite (Hup _ (eq_sym Hin) eq_refl); reflexivity|]);
      now apply elem_of_nil in Hin.
  - intros env s t Hs Hst. rewrite !chooseChannelForSeverity_table.
    now rewrite (ToUpper_fold_eq _ _ _ Hs Hst).
  - intros env sev Hascii Hnone. apply Hother. intros Hin.
    specialize (Hnone _ Hin). unfold ToUpper in Hnone. rewrite Hascii in Hnone.
    rewrite (fold_eq_upper_self sev Hascii) in Hnone. discriminate.
Qed.

End Channel.

(** ** Runs of the package *)

Lemma after_nil (p : Process) : after p [] = p.
Proof. destruct p. unfold after. simpl. now rewrite app_nil_r. Qed.

Lemma after_after (p : Process) (l1 l2 : list Event) :
  after (after p l1) l2 = after p (l1 ++ l2).
Proof. unfold after. simpl. now rewrite app_assoc. Qed.

Lemma sends_app (t1 t2 : list Event) : sends (t1 ++ t2) = (sends t1 ++ sends t2)%list.
Proof. apply omap_app. Qed.

Lemma posts_app (t1 t2 : list Event) : posts (t1 ++ t2) = (posts t1 ++ posts t2)%list.
Proof. apply omap_app. Qed.

Lemma consistent_cache (lg : logger.CloudLogger) (p : Process) :
  consistent p = true -> consistent (cache lg p) = true.
Proof.
  unfold consistent. simpl. intros H. apply andb_prop in H as [H _].
  rewrite H. reflexivity.
Qed.

Lemma consistent_after (p : Process) (evs : list Event) :
  consistent (after p evs) = consistent p.
Proof. reflexivity. Qed.

Lemma consistent_client (p : Process) :
  consistent p = true -> isSlackEnabled p = true -> exists c, slackClient p = Some c.
Proof.
  unfold consistent. intros H En. rewrite En in H. simpl in H.
  apply andb_prop in H as [H _]. apply bool_decide_eq_true in H.
  destruct H as [c Hc]. eauto.
Qed.

Section Runs.

Variable ext : Collaborators.

Lemma logger_New_stdout (env : gmap string string) :
  exists lg, logger_New ext env (logger.WithStdoutOnly :: relayOptions) = Ok lg.
Proof. eexists. reflexivity. Qed.

Lemma getLogger_run (p : Process) :
  consistent p = true ->
  exists lg, getLogger ext p = (Returns (Some lg), cache lg p).
Proof.
  intros Hc. unfold getLogger, mbind, M_bind, get.
  destruct (loggerInitOnce p) eqn:Once.
  - unfold consistent in Hc. rewrite Once in Hc. simpl in Hc.
    apply andb_prop in Hc as [_ Hc]. apply bool_decide_eq_true in Hc.
    destruct Hc as [lg Hlg]. exists lg. simpl. rewrite Hlg.
    destruct p; simpl in *; subst. reflexivity.
  - destruct (logger_New ext (environ p) relayOptions) as [lg|e].
    + exists lg. reflexivity.
    + destruct (logger_New_stdout (environ p)) as [lg Hlg]. rewrite Hlg.
      exists lg. reflexivity.
Qed.

(** What [SendMessage] does, case by case. *)
Lemma SendMessage_run (channelID message : string) (p : Process) :
  SendMessage ext channelID message p =
  let called := after p [SendMessageCall channelID message] in
  if negb (isSlackEnabled p) then
    (Returns (Err "slack is not properly configured"), called)
  else if negb (string_nonempty channelID) then
    (Returns (Err "channel ID is required"), called)
  else
    match slackClient p with
    | None => (Panics "nil *slack.Client", called)
    | Some c =>
        (Returns
           match slack_PostMessage ext (trace called) c channelID message with
           | Ok ts => Ok ts
           | Err e => Err (deliveryError e)
           end,
         after p [SendMessageCall channelID message; PostMessage c channelID message])
    end.
Proof.
  destruct p as [env oc en once lg t].
  unfold SendMessage, mbind, M_bind, mret, M_ret, get, record_event, after.
  cbn [isSlackEnabled slackClient trace environ loggerInitOnce appLogger].
  destruct en; cbn [negb]; [|reflexivity].
  destruct (string_nonempty channelID); cbn [negb]; [|reflexivity].
  destruct oc as [c|]; [|reflexivity].
  cbn [isSlackEnabled slackClient trace environ loggerInitOnce appLogger].
  rewrite <- app_assoc. cbn [app].
  destruct (slack_PostMessage ext _ c channelID message) as [ts|e]; [reflexivity|].
  unfold deliveryError, recognized. cbn [List.find fst snd].
  destruct (Contains e "invalid_auth"); [reflexivity|].
  destruct (Contains e "channel_not_found"); [reflexivity|].
  destruct (Contains e "not_in_channel"); reflexivity.
Qed.

(** What the handler does around its call of [SendMessage]. *)
Lemma HandleLogAlert_run (m : PubSubMessage) (p : Process) :
  consistent p = true ->
  exists lg,
    getLogger ext p = (Returns (Some lg), cache lg p)
    /\ HandleLogAlert ext m p =
       if Nat.eqb (length (Data m)) 0 then
         (Returns (Some "empty pubsub data"),
          after (cache lg p) [logged lg logging.Warning "empty pubsub data" None])
       else
         match json_Unmarshal ext (Data m) with
         | Err err =>
             (Returns (Some err),
              after (cache lg p)
                [logged lg logging.Error "failed to parse pubsub json" (Some (AString err))])
         | Ok payload =>
             let channelID :=
               chooseChannelForSeverity ext (environ p) (severityOf payload) in
             match SendMessage ext channelID (messageOf ext payload) (cache lg p) with
             | (Returns (Err err), q) =>
                 (Returns (Some err),
                  after q [logged lg logging.Error "slack send failed" (Some (AString err))])
             | (Returns (Ok ts), q) =>
                 (Returns None,
                  after q [logged lg logging.Info "slack message sent"
                             (Some (AObject {[ "ts" := AString ts;
                                               "channel" := AString channelID ]}))])
             | (Panics r, q) => (Panics r, q)
             end
         end.
Proof.
  intros Hc. destruct (getLogger_run p Hc) as [lg Hlg].
  exists lg. split; [exact Hlg|].
  unfold HandleLogAlert. unfold mbind at 1. unfold M_bind at 1. rewrite Hlg.
  destruct (Nat.eqb (length (Data m)) 0); [reflexivity|].
  destruct (json_Unmarshal ext (Data m)) as [payload|err]; [|reflexivity].
  cbn zeta. unfold mbind at 1. unfold M_bind at 1. unfold get at 1.
  unfold mbind at 1. unfold M_bind at 1. cbn [environ cache].
  destruct (SendMessage ext _ _ (cache lg p)) as [[[ts|err]|r] q]; reflexivity.
Qed.

End Runs.

(** ** The relay operation *)

Section Relay.

Variable ext : Collaborators.

(** C2. When the event payload is empty or [json.Unmarshal] rejects it, the
    handler returns a non-nil error, having logged exactly one record
    first (a warning for the empty payload, an error carrying the parse
    error otherwise), and [SendMessage] is not called, so nothing is posted
    either. *)
Theorem HandleLogAlert_malformed (m : PubSubMessage) (p : Process) :
  consistent p = true ->
  Data m = [] \/ (exists e, json_Unmarshal ext (Data m) = Err e) ->
  exists err lg sev msg data q,
    HandleLogAlert ext m p = (Returns (Some err), q)
    /\ q = after (cache lg p) [logged lg sev msg data]
    /\ (Data m = [] ->
        sev = logging.Warning /\ msg = "empty pubsub data" /\ data = None)
    /\ (Data m <> [] ->
        sev = logging.Error /\ msg = "failed to parse pubsub json"
        /\ data = Some (AString err) /\ json_Unmarshal ext (Data m) = Err err)
    /\ sends (trace q) = sends (trace p)
    /\ posts (trace q) = posts (trace p).
Proof.
  intros Hc Hbad.
  destruct (HandleLogAlert_run ext m p Hc) as (lg & _ & Hrun).
  destruct (Data m) as [|b data] eqn:HD.
  - cbn [length Nat.eqb] in Hrun.
    exists "empty pubsub data", lg, logging.Warning, "empty pubsub data", None.
    eexists. split; [exact Hrun|]. split; [reflexivity|].
    split; [auto|]. split; [congruence|].
    cbn [after trace cache]. rewrite sends_app, posts_app. cbn.
    now rewrite !app_nil_r.
  - destruct Hbad as [Hnil|[e He]]; [discriminate|].
    cbn [length Nat.eqb] in Hrun. rewrite He in Hrun.
    exists e, lg, logging.Error, "failed to parse pubsub json", (Some (AString e)).
    eexists. split; [exact Hrun|]. split; [reflexivity|].
    split; [congruence|]. split; [auto|].
    cbn [after trace cache]. rewrite sends_app, posts_app. cbn.
    now rewrite !app_nil_r.
Qed.

Lemma scenario_severity : severityOf scenario_payload = "ERROR".
Proof. vm_compute. reflexivity. Qed.

Lemma scenario_message : messageOf ext scenario_payload = scenario_text.
Proof. vm_compute. reflexivity. Qed.

Lemma error_channel (env : gmap string string) (ch : string) :
  ch <> EmptyString ->
  Getenv env "SLACK_ERROR_CHANNEL_ID" = ch ->
  chooseChannelForSeverity ext env "ERROR" = ch.
Proof.
  intros Hne Hch. rewrite chooseChannelForSeverity_table.
  change (ToUpper (unicode_ToUpper ext) "ERROR") with "ERROR".
  change (bucket_of "ERROR") with ErrorBucket.
  unfold destination. rewrite Hch. now rewrite bool_decide_eq_false_2.
Qed.

(** C3. On the payload
    [{'severity':'ERROR','logName':'projects/p/logs/l','textPayload':'boom'}]
    (apostrophes standing for double quotes), with the error destination
    set to C1 and the post succeeding with delivery token [ts], the handler
    sends exactly the message [ERROR] projects/p/logs/l, a line feed, boom
    to C1, then logs an info record holding the token and the destination,
    and returns no error. *)
Theorem HandleLogAlert_scenario (m : PubSubMessage) (p : Process)
    (c : slack.Client) (ts : string) :
  consistent p = true ->
  isSlackEnabled p = true ->
  slackClient p = Some c ->
  Getenv (environ p) "SLACK_ERROR_CHANNEL_ID" = "C1" ->
  Data m = Data scenario ->
  json_Unmarshal ext (Data scenario) = Ok scenario_payload ->
  slack_PostMessage ext (trace p ++ [SendMessageCall "C1" scenario_text])%list
    c "C1" scenario_text = Ok ts ->
  exists lg,
    HandleLogAlert ext m p =
    (Returns None,
     after (cache lg p)
       [ SendMessageCall "C1" scenario_text;
         PostMessage c "C1" scenario_text;
         logged lg logging.Info "slack message sent"
           (Some (AObject {[ "ts" := AString ts; "channel" := AString "C1" ]})) ]).
Proof.
  intros Hc En Hcl Hch HD Hjson Hpost.
  destruct (HandleLogAlert_run ext m p Hc) as (lg & _ & Hrun).
  exists lg. rewrite Hrun, HD, Hjson.
  change (Nat.eqb (length (Data scenario)) 0) with false. cbn iota zeta.
  rewrite scenario_severity, scenario_message.
  rewrite (error_channel (environ p) "C1") by (congruence || exact Hch).
  rewrite SendMessage_run. cbn [cache isSlackEnabled slackClient trace after].
  rewrite En, Hcl. cbn [negb string_nonempty]. cbn zeta.
  rewrite Hpost. rewrite after_after. reflexivity.
Qed.

(** C4, amended. When no destination channel resolves, the empty
    destination is passed to [SendMessage]; if the Slack integration was
    enabled at initialization, [SendMessage] rejects it with the validation
    error before any request is posted, and if it was not, the call fails
    on the configuration check that precedes the validation. Either way the
    handler logs the error and returns it. *)
Theorem HandleLogAlert_unresolved (m : PubSubMessage) (p : Process)
    (payload : gmap string any) :
  consistent p = true ->
  unresolved ext m p payload ->
  (isSlackEnabled p = true -> rejected_by_validation ext m p payload)
  /\ exists lg,
      HandleLogAlert ext m p =
      let err := if isSlackEnabled p then "channel ID is required"
                 else "slack is not properly configured" in
      (Returns (Some err),
       after (cache lg p)
         [ SendMessageCall EmptyString (messageOf ext payload);
           logged lg logging.Error "slack send failed" (Some (AString err)) ]).
Proof.
  intros Hc (HD & Hjson & Hch).
  destruct (HandleLogAlert_run ext m p Hc) as (lg & _ & Hrun).
  assert (Hlen : Nat.eqb (length (Data m)) 0 = false).
  { destruct (Data m); [congruence|reflexivity]. }
  rewrite Hlen, Hjson in Hrun. cbn zeta in Hrun. rewrite Hch in Hrun.
  rewrite SendMessage_run in Hrun.
  cbn [cache isSlackEnabled slackClient trace string_nonempty negb] in Hrun.
  cbn zeta in Hrun.
  assert (Hout : HandleLogAlert ext m p =
      let err := if isSlackEnabled p then "channel ID is required"
                 else "slack is not properly configured" in
      (Returns (Some err),
       after (cache lg p)
         [ SendMessageCall EmptyString (messageOf ext payload);
           logged lg logging.Error "slack send failed" (Some (AString err)) ])).
  { rewrite Hrun. destruct (isSlackEnabled p); cbn [negb]; cbn zeta;
      now rewrite after_after. }
  split; [|exists lg; exact Hout].
  intros En. rewrite En in Hout. cbn zeta in Hout.
  eexists. split; [exact Hout|].
  cbn [after trace cache]. rewrite sends_app, posts_app. cbn.
  now rewrite app_nil_r.
Qed.

(** C5. When the post to Slack fails with error [e], [SendMessage] turns it
    into [deliveryError e]: one of three distinct fixed texts when [e]
    mentions invalid_auth, channel_not_found or not_in_channel (looked for
    in this order), the generic wrapping of [e] otherwise; the handler logs
    that error and then returns it. *)
Theorem HandleLogAlert_delivery_error (m : PubSubMessage) (p : Process)
    (payload : gmap string any) (c : slack.Client) (e : error) :
  let channelID := chooseChannelForSeverity ext (environ p) (severityOf payload) in
  let message := messageOf ext payload in
  consistent p = true ->
  Data m <> [] ->
  json_Unmarshal ext (Data m) = Ok payload ->
  isSlackEnabled p = true ->
  slackClient p = Some c ->
  channelID <> EmptyString ->
  slack_PostMessage ext (trace p ++ [SendMessageCall channelID message])%list
    c channelID message = Err e ->
  (exists lg,
      HandleLogAlert ext m p =
      (Returns (Some (deliveryError e)),
       after (cache lg p)
         [ SendMessageCall channelID message;
           PostMessage c channelID message;
           logged lg logging.Error "slack send failed"
             (Some (AString (deliveryError e))) ]))
  /\ (Contains e "invalid_auth" = true ->
      deliveryError e
      = "slack authentication failed - please check your bot token and permissions")
  /\ (Contains e "invalid_auth" = false -> Contains e "channel_not_found" = true ->
      deliveryError e = "slack channel not found - please check your channel ID")
  /\ (Contains e "invalid_auth" = false -> Contains e "channel_not_found" = false ->
      Contains e "not_in_channel" = true ->
      deliveryError e
      = "slack bot is not in the specified channel - please invite the bot to the channel")
  /\ (Contains e "invalid_auth" = false -> Contains e "channel_not_found" = false ->
      Contains e "not_in_channel" = false ->
      deliveryError e = "failed to send slack message: " ++ e)
  /\ NoDup (map snd recognized)
  /\ "failed to send slack message: " ++ e ∉ map snd recognized.
Proof.
  intros channelID message Hc HD Hjson En Hcl Hch Hpost.
  split.
  - destruct (HandleLogAlert_run ext m p Hc) as (lg & _ & Hrun).
    exists lg. rewrite Hrun.
    assert (Hlen : Nat.eqb (length (Data m)) 0 = false).
    { destruct (Data m); [congruence|reflexivity]. }
    rewrite Hlen, Hjson. cbn zeta. fold channelID. fold message.
    rewrite SendMessage_run.
    cbn [cache isSlackEnabled slackClient trace after]. rewrite En, Hcl.
    apply string_nonempty_true in Hch. rewrite Hch. cbn [negb]. cbn zeta.
    rewrite Hpost. now rewrite after_after.
  - unfold deliveryError, recognized. cbn [List.find fst snd map].
    repeat split.
    + now intros ->.
    + now intros -> ->.
    + now intros -> -> ->.
    + now intros -> -> ->.
    + repeat (apply NoDup_cons; split;
              [rewrite ?elem_of_cons, elem_of_nil; intuition discriminate|]).
      apply NoDup_nil. constructor.
    + rewrite !elem_of_cons, elem_of_nil. cbn. intuition discriminate.
Qed.

Lemma HandleLogAlert_shape (m : PubSubMessage) (p : Process) :
  consistent p = true ->
  exists res lg evs,
    getLogger ext p = (Returns (Some lg), cache lg p)
    /\ HandleLogAlert ext m p = (Returns res, after (cache lg p) evs)
    /\ sends evs = attempted ext m p
    /\ posts evs = requested ext m p.
Proof.
  intros Hc. destruct (HandleLogAlert_run ext m p Hc) as (lg & Hget & Hrun).
  unfold requested, attempted.
  destruct (Nat.eqb (length (Data m)) 0).
  { do 3 eexists. split; [exact Hget|]; split; [exact Hrun|]. split; reflexivity. }
  destruct (json_Unmarshal ext (Data m)) as [payload|err].
  2:{ do 3 eexists. split; [exact Hget|]; split; [exact Hrun|]. split; reflexivity. }
  cbn zeta in Hrun. rewrite SendMessage_run in Hrun.
  cbn [cache isSlackEnabled slackClient trace after] in Hrun. cbn zeta in Hrun.
  set (channelID := chooseChannelForSeverity ext (environ p) (severityOf payload)) in *.
  set (message := messageOf ext payload) in *.
  cbn [mbind list_bind mapM flat_map app]. rewrite ?app_nil_r.
  destruct (isSlackEnabled p) eqn:En; cbn [negb andb] in *.
  2:{ rewrite after_after in Hrun.
      do 3 eexists. split; [exact Hget|]; split; [exact Hrun|]. split; reflexivity. }
  destruct (string_nonempty channelID); cbn [negb] in *.
  2:{ rewrite after_after in Hrun.
      do 3 eexists. split; [exact Hget|]; split; [exact Hrun|]. split; reflexivity. }
  destruct (consistent_client p Hc En) as [c Hcl]. rewrite Hcl in *.
  destruct (slack_PostMessage ext _ c channelID message) as [ts|e];
    rewrite after_after in Hrun;
    do 3 eexists; (split; [exact Hget|]; split; [exact Hrun|]); split; reflexivity.
Qed.



(** The handler hands [SendMessage] the message [messageOf] builds. *)
Lemma HandleLogAlert_sends (m : PubSubMessage) (p : Process) (payload : gmap string any) :
  consistent p = true ->
  Data m <> [] ->
  json_Unmarshal ext (Data m) = Ok payload ->
  exists res q,
    HandleLogAlert ext m p = (Returns res, q)
    /\ sends (trace q)
       = (sends (trace p)
          ++ [ (chooseChannelForSeverity ext (environ p) (severityOf payload),
                messageOf ext payload) ])%list.
Proof.
  intros Hc HD Hjson.
  destruct (HandleLogAlert_shape m p Hc) as (res & lg & evs & _ & Hrun & Hs & _).
  exists res. eexists. split; [exact Hrun|].
  cbn [after trace cache]. rewrite sends_app, Hs. unfold attempted.
  destruct (Data m); [congruence|]. cbn [length Nat.eqb]. now rewrite Hjson.
Qed.

(** The message as one concatenation: first line, text line, JSON line. *)
Lemma messageOf_parts (payload : gmap string any) :
  messageOf ext payload
  = "[" ++ severityOf payload ++ "] " ++ getString (index payload "logName")
    ++ (if string_nonempty (getString (index payload "textPayload"))
        then LF ++ getString (index payload "textPayload") else EmptyString)
    ++ match payload !! "jsonPayload" with
       | Some ANil | None => EmptyString
       | Some jp =>
           match json_Marshal ext jp with
           | Ok compact => LF ++ "json: " ++ compact
           | Err _ => EmptyString
           end
       end.
Proof.
  unfold messageOf. cbn zeta.
  set (logName := getString (index payload "logName")).
  set (text := getString (index payload "textPayload")).
  assert (Hb : (if string_nonempty text
                then ("[" ++ severityOf payload ++ "] " ++ logName) ++ LF ++ text
                else "[" ++ severityOf payload ++ "] " ++ logName)
               = "[" ++ severityOf payload ++ "] " ++ logName
                 ++ (if string_nonempty text then LF ++ text else EmptyString)).
  { destruct (string_nonempty text).
    - now rewrite !append_assoc.
    - now rewrite append_nil_r. }
  rewrite Hb.
  set (tl := if string_nonempty text then LF ++ text else EmptyString).
  destruct (payload !! "jsonPayload") as [jp|].
  + destruct jp; try (now rewrite append_nil_r);
      (destruct (json_Marshal ext _) as [compact|e];
       [now rewrite !append_assoc | now rewrite append_nil_r]).
  + now rewrite append_nil_r.
Qed.

(** C8. The message starts with the line [[SEVERITY] logName]; the text
    payload follows on a new line when it is not empty; and when the
    payload has a [jsonPayload] that is not null and that [json.Marshal]
    accepts, a last line holds [json: ] and its compact encoding. Nothing
    else is added, and this is the message the handler sends. *)
Theorem messageOf_format (payload : gmap string any) :
  let logName := getString (index payload "logName") in
  let text := getString (index payload "textPayload") in
  (exists textLine jsonLine,
      messageOf ext payload
      = "[" ++ severityOf payload ++ "] " ++ logName ++ textLine ++ jsonLine
      /\ (text = EmptyString -> textLine = EmptyString)
      /\ (text <> EmptyString -> textLine = LF ++ text)
      /\ (forall jp compact,
             payload !! "jsonPayload" = Some jp -> jp <> ANil ->
             json_Marshal ext jp = Ok compact ->
             jsonLine = LF ++ "json: " ++ compact)
      /\ (payload !! "jsonPayload" = None
          \/ payload !! "jsonPayload" = Some ANil
          \/ (exists jp e, payload !! "jsonPayload" = Some jp
                           /\ json_Marshal ext jp = Err e) ->
          jsonLine = EmptyString))
  /\ (forall m p,
         consistent p = true -> Data m <> [] ->
         json_Unmarshal ext (Data m) = Ok payload ->
         exists res q,
           HandleLogAlert ext m p = (Returns res, q)
           /\ sends (trace q)
              = (sends (trace p)
                 ++ [ (chooseChannelForSeverity ext (environ p) (severityOf payload),
                       messageOf ext payload) ])%list).
Proof.
  intros logName text. split; [|intros m p; apply HandleLogAlert_sends].
  exists (if string_nonempty text then LF ++ text else EmptyString).
  exists (match payload !! "jsonPayload" with
          | Some ANil | None => EmptyString
          | Some jp =>
              match json_Marshal ext jp with
              | Ok compact => LF ++ "json: " ++ compact
              | Err _ => EmptyString
              end
          end).
  split; [|split; [|split; [|split]]].
  - apply messageOf_parts.
  - now intros ->.
  - intros Hne. apply string_nonempty_true in Hne. now rewrite Hne.
  - intros jp compact -> Hnn ->. now destruct jp.
  - intros [->|[->|(jp & e & -> & He)]]; try reflexivity.
    rewrite He. now destruct jp.
Qed.


(** *** Initialization *)

Lemma boot_consistent (env : gmap string string) : consistent (boot ext env) = true.
Proof.
  unfold boot, init, testSlackAuth, mbind, M_bind, get, set_environ, start.
  cbn [environ].
  destruct (string_nonempty (Getenv (godotenv_Load ext env) "SLACK_BOT_TOKEN"));
    cbn [negb]; [|reflexivity].
  destruct (HasPrefix (Getenv (godotenv_Load ext env) "SLACK_BOT_TOKEN") "xoxb-");
    cbn [negb]; [|reflexivity].
  unfold set_slackClient. cbn [slackClient]. unfold record_event, mret, M_ret.
  destruct (slack_AuthTest ext _); reflexivity.
Qed.

Lemma boot_disabled (env : gmap string string) :
  let botToken := Getenv (godotenv_Load ext env) "SLACK_BOT_TOKEN" in
  botToken = EmptyString
  \/ HasPrefix botToken "xoxb-" = false
  \/ (exists e, slack_AuthTest ext (slack.New botToken) = Some e) ->
  isSlackEnabled (boot ext env) = false /\ posts (trace (boot ext env)) = [].
Proof.
  intros botToken Hbad.
  unfold boot, init, testSlackAuth, mbind, M_bind, get, set_environ, start.
  cbn [environ]. fold botToken.
  destruct (string_nonempty botToken) eqn:Hne; cbn [negb]; [|split; reflexivity].
  destruct (HasPrefix botToken "xoxb-") eqn:Hpre; cbn [negb]; [|split; reflexivity].
  unfold set_slackClient. cbn [slackClient]. unfold record_event, mret, M_ret.
  destruct (slack_AuthTest ext (slack.New botToken)) as [e|] eqn:Hauth;
    [split; reflexivity|].
  destruct Hbad as [H|[H|[e H]]].
  - apply string_nonempty_false in H. congruence.
  - congruence.
  - congruence.
Qed.

(** Once disabled, always disabled: no call enables Slack or posts. *)
Lemma call_disabled (c : Call) (p : Process) :
  consistent p = true -> isSlackEnabled p = false ->
  consistent (call ext c p) = true
  /\ isSlackEnabled (call ext c p) = false
  /\ posts (trace (call ext c p)) = posts (trace p).
Proof.
  intros Hc Hdis. destruct c as [channelID message|m]; unfold call.
  - rewrite SendMessage_run. cbn zeta. rewrite Hdis. cbn [negb snd].
    rewrite consistent_after. cbn [after isSlackEnabled trace].
    rewrite posts_app. cbn. now rewrite app_nil_r.
  - destruct (HandleLogAlert_shape m p Hc) as (res & lg & evs & _ & -> & _ & Hp).
    cbn [snd]. rewrite consistent_after. cbn [after cache isSlackEnabled trace].
    split; [now apply consistent_cache|]. split; [exact Hdis|].
    rewrite posts_app, Hp. unfold requested. rewrite Hdis. cbn [andb].
    induction (attempted ext m p) as [|[ch msg] l IH]; [now rewrite app_nil_r|].
    exact IH.
Qed.

Lemma run_disabled (calls : list Call) (p : Process) :
  consistent p = true -> isSlackEnabled p = false ->
  consistent (run ext calls p) = true
  /\ isSlackEnabled (run ext calls p) = false
  /\ posts (trace (run ext calls p)) = posts (trace p).
Proof.
  revert p. induction calls as [|c calls IH]; intros p Hc Hdis; [auto|].
  destruct (call_disabled c p Hc Hdis) as (Hc' & Hdis' & Hposts).
  destruct (IH (call ext c p) Hc' Hdis') as (H1 & H2 & H3).
  unfold run in *. cbn [fold_left]. rewrite H3, Hposts. auto.
Qed.

(** C10. If [init] found no bot token, a token without the [xoxb-] prefix,
    or a token the authentication test rejects, then after any sequence of
    calls every call of [SendMessage] returns the configuration error,
    whatever the destination and the message, and no post was ever
    requested. *)
Theorem SendMessage_not_configured (env : gmap string string)
    (calls : list Call) (channelID message : string) :
  let botToken := Getenv (godotenv_Load ext env) "SLACK_BOT_TOKEN" in
  botToken = EmptyString
  \/ HasPrefix botToken "xoxb-" = false
  \/ (exists e, slack_AuthTest ext (slack.New botToken) = Some e) ->
  let p := run ext calls (boot ext env) in
  SendMessage ext channelID message p
  = (Returns (Err "slack is not properly configured"),
     after p [SendMessageCall channelID message])
  /\ posts (trace (after p [SendMessageCall channelID message])) = [].
Proof.
  intros botToken Hbad p.
  destruct (boot_disabled env Hbad) as [Hdis Hposts].
  destruct (run_disabled calls (boot ext env) (boot_consistent env) Hdis)
    as (_ & Hdis' & Hposts').
  fold p in Hdis', Hposts'.
  split.
  - rewrite SendMessage_run. cbn zeta. now rewrite Hdis'.
  - cbn [after trace]. rewrite posts_app, Hposts', Hposts. reflexivity.
Qed.

End Relay.

(** ** The package at work in a concrete world *)

Example scenario_decodes : jsonref.Unmarshal (Data scenario) = Ok scenario_payload.
Proof. vm_compute. reflexivity. Qed.

Example route_error : chooseChannelForSeverity w_ok env3 "error" = "CE".
Proof. vm_compute. reflexivity. Qed.

Example route_notice : chooseChannelForSeverity w_ok env3 "Notice" = "CW".
Proof. vm_compute. reflexivity. Qed.

Example route_info : chooseChannelForSeverity w_ok env3 "info" = "CD".
Proof. vm_compute. reflexivity. Qed.

Example route_warning_unset : chooseChannelForSeverity w_ok env1 "WARNING" = EmptyString.
Proof. vm_compute. reflexivity. Qed.

Example empty_event_fails :
  fst (HandleLogAlert w_ok empty_event p_ok) = Returns (Some "empty pubsub data").
Proof. vm_compute. reflexivity. Qed.

Example null_event_is_sent :
  sends (trace (snd (HandleLogAlert w_ok null_event (boot w_ok env3))))
  = [("CD", "[DEFAULT] ")].
Proof. vm_compute. reflexivity. Qed.

Example upper_mixed : ToUpper (fun s => s) "Emergency" = "EMERGENCY".
Proof. reflexivity. Qed.

Example contains_marker : Contains "slack: channel_not_found (404)" "channel_not_found" = true.
Proof. reflexivity. Qed.

Lemma chooseChannelForSeverity_buckets_witness :
  fold_eq "error" "ERROR" = true
  /\ chooseChannelForSeverity w_ok env1 "error" = destination env1 ErrorBucket.
Proof.
  split; [reflexivity|].
  destruct (chooseChannelForSeverity_buckets w_ok) as (_ & H & _).
  apply (H env1 "error" "ERROR"); [reflexivity|].
  unfold error_severities. rewrite !elem_of_cons. auto.
Defined.

Lemma HandleLogAlert_malformed_witness :
  consistent p_ok = true
  /\ (exists e, json_Unmarshal w_ok (Data garbled) = Err e)
  /\ exists err lg sev msg data q,
      HandleLogAlert w_ok garbled p_ok = (Returns (Some err), q)
      /\ q = after (cache lg p_ok) [logged lg sev msg data]
      /\ (Data garbled = [] ->
          sev = logging.Warning /\ msg = "empty pubsub data" /\ data = None)
      /\ (Data garbled <> [] ->
          sev = logging.Error /\ msg = "failed to parse pubsub json"
          /\ data = Some (AString err) /\ json_Unmarshal w_ok (Data garbled) = Err err)
      /\ sends (trace q) = sends (trace p_ok)
      /\ posts (trace q) = posts (trace p_ok).
Proof.
  assert (Hc : consistent p_ok = true) by (vm_compute; reflexivity).
  assert (He : exists e, json_Unmarshal w_ok (Data garbled) = Err e).
  { eexists. vm_compute. reflexivity. }
  split; [exact Hc|]. split; [exact He|].
  apply (HandleLogAlert_malformed w_ok garbled p_ok Hc (or_intror He)).
Defined.

Lemma HandleLogAlert_scenario_witness :
  exists lg,
    HandleLogAlert w_ok scenario p_ok =
    (Returns None,
     after (cache lg p_ok)
       [ SendMessageCall "C1" scenario_text;
         PostMessage client1 "C1" scenario_text;
         logged lg logging.Info "slack message sent"
           (Some (AObject {[ "ts" := AString "1700000000.000100";
                             "channel" := AString "C1" ]})) ]).
Proof.
  apply (HandleLogAlert_scenario w_ok scenario p_ok client1 "1700000000.000100").
  - vm_compute. reflexivity.
  - vm_compute. reflexivity.
  - vm_compute. reflexivity.
  - vm_compute. reflexivity.
  - reflexivity.
  - vm_compute. reflexivity.
  - reflexivity.
Defined.

(** C4 as the specification states it fails where Slack is disabled: no
    channel resolves, the empty destination does reach [SendMessage], but
    the error that comes back is the configuration error, not the
    validation error. *)
Lemma unresolved_but_not_validated :
  consistent p_disabled = true
  /\ unresolved w_ok scenario p_disabled scenario_payload
  /\ fst (HandleLogAlert w_ok scenario p_disabled)
     = Returns (Some "slack is not properly configured")
  /\ ~ rejected_by_validation w_ok scenario p_disabled scenario_payload.
Proof.
  split; [vm_compute; reflexivity|].
  split.
  { split; [discriminate|]. split; vm_compute; reflexivity. }
  split; [vm_compute; reflexivity|].
  intros (q & H & _).
  apply (f_equal fst) in H. vm_compute in H. discriminate H.
Qed.

Lemma HandleLogAlert_unresolved_witness :
  consistent p_no_channel = true
  /\ unresolved w_ok scenario p_no_channel scenario_payload
  /\ isSlackEnabled p_no_channel = true
  /\ rejected_by_validation w_ok scenario p_no_channel scenario_payload.
Proof.
  assert (Hc : consistent p_no_channel = true) by (vm_compute; reflexivity).
  assert (Hu : unresolved w_ok scenario p_no_channel scenario_payload).
  { split; [discriminate|]. split; vm_compute; reflexivity. }
  assert (En : isSlackEnabled p_no_channel = true) by (vm_compute; reflexivity).
  split; [exact Hc|]. split; [exact Hu|]. split; [exact En|].
  exact (proj1 (HandleLogAlert_unresolved w_ok scenario p_no_channel scenario_payload Hc Hu) En).
Defined.

Lemma HandleLogAlert_delivery_error_witness :
  exists lg,
    HandleLogAlert w_not_found scenario p_not_found =
    (Returns (Some "slack channel not found - please check your channel ID"),
     after (cache lg p_not_found)
       [ SendMessageCall "C1" scenario_text;
         PostMessage client1 "C1" scenario_text;
         logged lg logging.Error "slack send failed"
           (Some (AString "slack channel not found - please check your channel ID")) ]).
Proof.
  refine (proj1 (HandleLogAlert_delivery_error w_not_found scenario p_not_found
                   scenario_payload client1 "channel_not_found" _ _ _ _ _ _ _)).
  - vm_compute. reflexivity.
  - discriminate.
  - vm_compute. reflexivity.
  - vm_compute. reflexivity.
  - vm_compute. reflexivity.
  - vm_compute. discriminate.
  - reflexivity.
Defined.


Lemma messageOf_format_witness :
  messageOf w_ok structured_payload
  = "[WARNING] l" ++ LF ++ "disk" ++ LF ++ "json: {" ++ DQ ++ "code" ++ DQ ++ ":7}".
Proof.
  destruct (messageOf_format w_ok structured_payload)
    as [(textLine & jsonLine & Heq & _ & Htext & Hjson & _) _].
  rewrite Heq.
  rewrite Htext by (vm_compute; discriminate).
  rewrite (Hjson (AObject {[ "code" := ANumber "7" ]})
             ("{" ++ DQ ++ "code" ++ DQ ++ ":7}"))
    by (vm_compute; reflexivity || discriminate).
  vm_compute. reflexivity.
Defined.


Lemma SendMessage_not_configured_witness :
  (exists e, slack_AuthTest w_rejected
               (slack.New (Getenv (godotenv_Load w_rejected env1) "SLACK_BOT_TOKEN"))
             = Some e)
  /\ let p := run w_rejected [CallHandleLogAlert scenario] (boot w_rejected env1) in
     SendMessage w_rejected "C1" "hello" p
     = (Returns (Err "slack is not properly configured"),
        after p [SendMessageCall "C1" "hello"])
     /\ posts (trace (after p [SendMessageCall "C1" "hello"])) = [].
Proof.
  assert (H : exists e, slack_AuthTest w_rejected
                (slack.New (Getenv (godotenv_Load w_rejected env1) "SLACK_BOT_TOKEN"))
              = Some e).
  { eexists. reflexivity. }
  split; [exact H|].
  exact (SendMessage_not_configured w_rejected env1 [CallHandleLogAlert scenario]
           "C1" "hello" (or_intror (or_intror H))).
Defined.

(** * Further properties *)

Lemma emits_app (t1 t2 : list Event) : emits (t1 ++ t2) = (emits t1 ++ emits t2)%list.
Proof. apply omap_app. Qed.

Lemma authTests_app (t1 t2 : list Event) :
  authTests (t1 ++ t2) = (authTests t1 ++ authTests t2)%list.
Proof. apply omap_app. Qed.

Lemma printed_app (t1 t2 : list Event) : printed (t1 ++ t2) = (printed t1 ++ printed t2)%list.
Proof. apply omap_app. Qed.

Lemma nonempty_length {A : Type} (l : list A) : l <> [] -> Nat.eqb (length l) 0 = false.
Proof. destruct l; [congruence|reflexivity]. Qed.

Section Further.

Variable ext : Collaborators.

(** ** The logger cache *)

Lemma getLogger_eq (p : Process) :
  getLogger ext p =
  if loggerInitOnce p then (Returns (appLogger p), p)
  else (Returns (constructed ext (environ p)),
        initialized (constructed ext (environ p)) p).
Proof.
  unfold getLogger, mbind, M_bind, get. destruct (loggerInitOnce p); reflexivity.
Qed.

(** X1. [getLogger] builds the logger on the first call only: a second call
    returns the same pointer and leaves the process as the first call left
    it. No call touches the environment, the Slack variables or the trace,
    and a call on a process whose cache is filled changes nothing. *)
Theorem getLogger_idempotent (p : Process) :
  let r := getLogger ext p in
  getLogger ext (snd r) = r
  /\ fst r = Returns (appLogger (snd r))
  /\ loggerInitOnce (snd r) = true
  /\ environ (snd r) = environ p
  /\ slackClient (snd r) = slackClient p
  /\ isSlackEnabled (snd r) = isSlackEnabled p
  /\ trace (snd r) = trace p
  /\ (loggerInitOnce p = true -> snd r = p).
Proof.
  cbn zeta. rewrite (getLogger_eq p).
  destruct (loggerInitOnce p) eqn:Once; cbn [fst snd].
  - rewrite getLogger_eq, Once. auto 10.
  - rewrite getLogger_eq. cbn [loggerInitOnce initialized appLogger].
    repeat split; try reflexivity. discriminate.
Qed.

(** ** Sending *)

Lemma SendMessage_after (channelID message : string) (p : Process) :
  exists o evs,
    SendMessage ext channelID message p = (o, after p evs)
    /\ sends evs = [(channelID, message)]
    /\ emits evs = []
    /\ posts evs =
       match slackClient p with
       | Some c =>
           if isSlackEnabled p && string_nonempty channelID
           then [(c, channelID, message)] else []
       | None => []
       end.
Proof.
  rewrite SendMessage_run. cbn zeta.
  destruct (isSlackEnabled p); cbn [negb andb].
  2:{ do 2 eexists. split; [reflexivity|]. now destruct (slackClient p). }
  destruct (string_nonempty channelID); cbn [negb].
  2:{ do 2 eexists. split; [reflexivity|]. now destruct (slackClient p). }
  destruct (slackClient p) as [c|]; do 2 eexists; split; reflexivity || auto.
Qed.

Lemma SendMessage_token (channelID message ts : string) (p : Process) :
  fst (SendMessage ext channelID message p) = Returns (Ok ts)
  <-> isSlackEnabled p = true
      /\ channelID <> EmptyString
      /\ exists c,
          slackClient p = Some c
          /\ slack_PostMessage ext (trace p ++ [SendMessageCall channelID message])%list
               c channelID message = Ok ts
          /\ snd (SendMessage ext channelID message p)
             = after p [SendMessageCall channelID message;
                        PostMessage c channelID message].
Proof.
  rewrite SendMessage_run. cbn zeta. cbn [after trace].
  destruct (isSlackEnabled p); cbn [negb].
  2:{ cbn [fst]. split; [discriminate|]. intros [H _]. discriminate. }
  destruct (string_nonempty channelID) eqn:Hne; cbn [negb].
  2:{ cbn [fst]. split; [discriminate|]. intros (_ & H & _).
      apply string_nonempty_true in H. congruence. }
  apply string_nonempty_true in Hne.
  destruct (slackClient p) as [c|]; cbn [fst snd].
  2:{ split; [discriminate|]. intros (_ & _ & c & H & _). discriminate. }
  destruct (slack_PostMessage ext _ c channelID message) as [ts'|e] eqn:Hpost.
  - split.
    + intros H. injection H as ->. split; [reflexivity|]. split; [exact Hne|].
      exists c. auto.
    + intros (_ & _ & c' & Hc & Hp & _). injection Hc as <-.
      rewrite Hpost in Hp. now injection Hp as ->.
  - split; [discriminate|].
    intros (_ & _ & c' & Hc & Hp & _). injection Hc as <-.
    rewrite Hpost in Hp. discriminate.
Qed.

(** X2. [SendMessage] returns a delivery token exactly when Slack is enabled,
    the channel is not empty and the web API accepted the post; the token is
    the one the web API answered, and the post carried the channel and the
    message unchanged. *)
Theorem SendMessage_ok_iff (channelID message ts : string) (p : Process) :
  fst (SendMessage ext channelID message p) = Returns (Ok ts)
  <-> isSlackEnabled p = true
      /\ channelID <> EmptyString
      /\ exists c,
          slackClient p = Some c
          /\ slack_PostMessage ext (trace p ++ [SendMessageCall channelID message])%list
               c channelID message = Ok ts
          /\ snd (SendMessage ext channelID message p)
             = after p [SendMessageCall channelID message;
                        PostMessage c channelID message].
Proof. apply SendMessage_token. Qed.

(** X3. A call of [SendMessage] changes no package variable. It requests at
    most one post, and it requests one exactly when Slack is enabled, the
    channel is not empty and the client exists; it hands no record to the
    log sink. *)
Theorem SendMessage_effects (channelID message : string) (p : Process) :
  exists o evs,
    SendMessage ext channelID message p = (o, after p evs)
    /\ sends evs = [(channelID, message)]
    /\ emits evs = []
    /\ posts evs =
       match slackClient p with
       | Some c =>
           if isSlackEnabled p && string_nonempty channelID
           then [(c, channelID, message)] else []
       | None => []
       end.
Proof. apply SendMessage_after. Qed.

(** ** Initialization *)

(** What [init] leaves behind, up to the text of the line it prints. *)
Lemma boot_shape (env : gmap string string) :
  let tok := botToken ext env in
  let formed := string_nonempty tok && HasPrefix tok "xoxb-" in
  exists line,
    boot ext env =
    {| environ := godotenv_Load ext env;
       slackClient := if formed then Some (slack.New tok) else None;
       isSlackEnabled := token_accepted ext env;
       loggerInitOnce := false;
       appLogger := None;
       trace := ((if formed then [AuthTest (slack.New tok)] else [])
                 ++ [Printf line])%list |}.
Proof.
  cbn zeta. unfold token_accepted.
  unfold boot, init, testSlackAuth, mbind, M_bind, get, set_environ, start.
  cbn [environ]. fold (botToken ext env).
  destruct (string_nonempty (botToken ext env)); cbn [negb andb].
  2:{ eexists. reflexivity. }
  destruct (HasPrefix (botToken ext env) "xoxb-"); cbn [negb andb].
  2:{ eexists. reflexivity. }
  unfold set_slackClient. cbn [slackClient]. unfold record_event, mret, M_ret.
  destruct (slack_AuthTest ext (slack.New (botToken ext env))) as [e|];
    eexists; reflexivity.
Qed.

(** X4. [init] enables Slack exactly when the bot token is present, starts
    with [xoxb-] and passes the authentication test. It creates the client,
    from that token, as soon as the token is present and has the prefix,
    so a token that fails the test leaves a client behind with Slack
    disabled; an enabled Slack always has its client. The environment it
    leaves is the one the [.env] loader produced. *)
Theorem init_enables_iff (env : gmap string string) :
  isSlackEnabled (boot ext env) = token_accepted ext env
  /\ slackClient (boot ext env)
     = (if string_nonempty (botToken ext env) && HasPrefix (botToken ext env) "xoxb-"
        then Some (slack.New (botToken ext env)) else None)
  /\ (isSlackEnabled (boot ext env) = true ->
      slackClient (boot ext env) = Some (slack.New (botToken ext env)))
  /\ environ (boot ext env) = godotenv_Load ext env.
Proof.
  destruct (boot_shape env) as [line ->]. cbn [isSlackEnabled slackClient environ].
  split; [reflexivity|]. split; [reflexivity|]. split; [|reflexivity].
  unfold token_accepted. intros H.
  apply andb_prop in H as [H _]. now rewrite H.
Qed.

(** X5. [init] asks Slack to authenticate only a token that is present and
    has the [xoxb-] prefix, and then exactly once; in every case it prints
    exactly one line, posts nothing, calls [SendMessage] never, logs no
    record and leaves the logger cache empty. *)
Theorem init_trace (env : gmap string string) :
  let tok := botToken ext env in
  let t := trace (boot ext env) in
  authTests t
  = (if string_nonempty tok && HasPrefix tok "xoxb-" then [slack.New tok] else [])
  /\ length (printed t) = 1
  /\ posts t = [] /\ sends t = [] /\ emits t = []
  /\ loggerInitOnce (boot ext env) = false.
Proof.
  cbn zeta. destruct (boot_shape env) as [line ->]. cbn [trace loggerInitOnce].
  rewrite authTests_app, printed_app, posts_app, sends_app, emits_app.
  destruct (string_nonempty (botToken ext env) && HasPrefix (botToken ext env) "xoxb-");
    repeat split; reflexivity.
Qed.

(** X6. [testSlackAuth] answers nil exactly when the client exists and the
    authentication test passes. Without a client it fails without asking
    Slack; with one it asks once. It changes no package variable. *)
Theorem testSlackAuth_result (p : Process) :
  exists r evs,
    testSlackAuth ext p = (Returns r, after p evs)
    /\ (r = None <-> exists c, slackClient p = Some c /\ slack_AuthTest ext c = None)
    /\ authTests evs = match slackClient p with Some c => [c] | None => [] end
    /\ posts evs = [].
Proof.
  unfold testSlackAuth, mbind, M_bind, get.
  destruct (slackClient p) as [c|] eqn:Hc.
  - exists (slack_AuthTest ext c), [AuthTest c]. split; [reflexivity|].
    split; [|split; reflexivity].
    split.
    + intros H. exists c. auto.
    + intros (c' & Hc' & H). now injection Hc' as ->.
  - exists (Some "slack client not initialized"), []. rewrite after_nil.
    split; [reflexivity|]. split; [|split; reflexivity].
    split; [discriminate|]. intros (c & H & _). discriminate.
Qed.

(** ** What no call changes *)

Lemma HandleLogAlert_after (m : PubSubMessage) (p : Process) :
  exists o evs,
    HandleLogAlert ext m p = (o, after (snd (getLogger ext p)) evs).
Proof.
  unfold HandleLogAlert. unfold mbind at 1. unfold M_bind at 1.
  destruct (getLogger ext p) as [[[lg|]|r] q] eqn:Hget; cbn [snd].
  - destruct (Nat.eqb (length (Data m)) 0).
    { do 2 eexists. reflexivity. }
    destruct (json_Unmarshal ext (Data m)) as [payload|err].
    2:{ do 2 eexists. reflexivity. }
    cbn zeta. unfold mbind at 1. unfold M_bind at 1. unfold get at 1.
    unfold mbind at 1. unfold M_bind at 1.
    destruct (SendMessage_after
                (chooseChannelForSeverity ext (environ q) (severityOf payload))
                (messageOf ext payload) q) as (o & evs & -> & _).
    destruct o as [[ts|err]|r].
    + eexists _, (evs ++ [_])%list. rewrite <- after_after. reflexivity.
    + eexists _, (evs ++ [_])%list. rewrite <- after_after. reflexivity.
    + do 2 eexists. reflexivity.
  - exists (Panics "nil *logger.CloudLogger"), []. now rewrite after_nil.
  - exists (Panics r), []. now rewrite after_nil.
Qed.

Lemma call_frame (c : Call) (p : Process) :
  environ (call ext c p) = environ p
  /\ slackClient (call ext c p) = slackClient p
  /\ isSlackEnabled (call ext c p) = isSlackEnabled p
  /\ (loggerInitOnce p = true ->
      loggerInitOnce (call ext c p) = true /\ appLogger (call ext c p) = appLogger p).
Proof.
  destruct c as [channelID message|m]; unfold call.
  - destruct (SendMessage_after channelID message p) as (o & evs & -> & _).
    cbn [snd after environ slackClient isSlackEnabled loggerInitOnce appLogger]. auto.
  - destruct (HandleLogAlert_after m p) as (o & evs & ->).
    rewrite getLogger_eq.
    destruct (loggerInitOnce p) eqn:Once; cbn [snd after initialized environ
      slackClient isSlackEnabled loggerInitOnce appLogger]; auto.
    repeat split; try reflexivity. discriminate.
Qed.

Lemma run_frame (calls : list Call) (p : Process) :
  environ (run ext calls p) = environ p
  /\ slackClient (run ext calls p) = slackClient p
  /\ isSlackEnabled (run ext calls p) = isSlackEnabled p
  /\ (loggerInitOnce p = true ->
      loggerInitOnce (run ext calls p) = true
      /\ appLogger (run ext calls p) = appLogger p).
Proof.
  revert p. induction calls as [|c calls IH]; intros p; [cbn; auto|].
  change (run ext (c :: calls) p) with (run ext calls (call ext c p)).
  destruct (call_frame c p) as (E1 & E2 & E3 & E4).
  destruct (IH (call ext c p)) as (F1 & F2 & F3 & F4).
  rewrite F1, F2, F3, E1, E2, E3.
  split; [reflexivity|]. split; [reflexivity|]. split; [reflexivity|].
  intros Once. destruct (E4 Once) as [O1 A1]. destruct (F4 O1) as [O2 A2].
  split; [exact O2|congruence].
Qed.

(** X7. Whatever calls of [SendMessage] and [HandleLogAlert] a process
    makes, from any state, the environment and the two Slack variables stay
    what they were; and once the logger cache is filled, the cached logger
    is never replaced. *)
Theorem configuration_is_fixed (calls : list Call) (p : Process) :
  environ (run ext calls p) = environ p
  /\ slackClient (run ext calls p) = slackClient p
  /\ isSlackEnabled (run ext calls p) = isSlackEnabled p
  /\ (loggerInitOnce p = true ->
      loggerInitOnce (run ext calls p) = true
      /\ appLogger (run ext calls p) = appLogger p).
Proof. apply run_frame. Qed.

(** X8. After [init], and after any sequence of calls, [SendMessage] returns
    for every destination and message: it never reaches the web API through
    a nil client. *)
Theorem SendMessage_returns_after_init (env : gmap string string)
    (calls : list Call) (channelID message : string) :
  exists r,
    fst (SendMessage ext channelID message (run ext calls (boot ext env))) = Returns r.
Proof.
  set (p := run ext calls (boot ext env)).
  destruct (run_frame calls (boot ext env)) as (_ & Hc & He & _). fold p in Hc, He.
  rewrite SendMessage_run. cbn zeta.
  destruct (isSlackEnabled p) eqn:En; cbn [negb]; [|eexists; reflexivity].
  destruct (string_nonempty channelID); cbn [negb]; [|eexists; reflexivity].
  destruct (consistent_client (boot ext env) (boot_consistent ext env)) as [c Hcl].
  { now rewrite <- He. }
  rewrite Hc, Hcl. eexists. reflexivity.
Qed.

(** ** Channels *)

Lemma chooseChannelForSeverity_empty (env : gmap string string) (sev : string) :
  chooseChannelForSeverity ext env sev = EmptyString
  <-> default_destination env = EmptyString
      /\ match bucket_of (ToUpper (unicode_ToUpper ext) sev) with
         | ErrorBucket => Getenv env "SLACK_ERROR_CHANNEL_ID" = EmptyString
         | WarningBucket => Getenv env "SLACK_WARNING_CHANNEL_ID" = EmptyString
         | DefaultBucket => True
         end.
Proof.
  rewrite chooseChannelForSeverity_table. unfold destination.
  destruct (bucket_of (ToUpper (unicode_ToUpper ext) sev)).
  - destruct (decide (Getenv env "SLACK_ERROR_CHANNEL_ID" = EmptyString)) as [E|E].
    + rewrite bool_decide_eq_true_2 by exact E. tauto.
    + rewrite bool_decide_eq_false_2 by exact E. tauto.
  - destruct (decide (Getenv env "SLACK_WARNING_CHANNEL_ID" = EmptyString)) as [E|E].
    + rewrite bool_decide_eq_true_2 by exact E. tauto.
    + rewrite bool_decide_eq_false_2 by exact E. tauto.
  - rewrite bool_decide_eq_true_2 by reflexivity. tauto.
Qed.

(** X9. The channel chosen for a severity is always the value of one of the
    three channel variables. It is empty exactly when the default channel is
    unset and the channel of the severity's own bucket, if it has one, is
    unset too; so with a default channel configured a channel always
    resolves. *)
Theorem chooseChannelForSeverity_resolves (env : gmap string string) (sev : string) :
  chooseChannelForSeverity ext env sev
    ∈ [ Getenv env "SLACK_ERROR_CHANNEL_ID";
        Getenv env "SLACK_WARNING_CHANNEL_ID";
        Getenv env "SLACK_DEFAULT_CHANNEL_ID" ]
  /\ (chooseChannelForSeverity ext env sev = EmptyString
      <-> default_destination env = EmptyString
          /\ match bucket_of (ToUpper (unicode_ToUpper ext) sev) with
             | ErrorBucket => Getenv env "SLACK_ERROR_CHANNEL_ID" = EmptyString
             | WarningBucket => Getenv env "SLACK_WARNING_CHANNEL_ID" = EmptyString
             | DefaultBucket => True
             end)
  /\ (default_destination env <> EmptyString ->
      chooseChannelForSeverity ext env sev <> EmptyString).
Proof.
  split; [|split; [apply chooseChannelForSeverity_empty|]].
  - rewrite chooseChannelForSeverity_table. unfold destination, default_destination.
    rewrite !elem_of_cons.
    destruct (bucket_of (ToUpper (unicode_ToUpper ext) sev)).
    + destruct (bool_decide _); auto.
    + destruct (bool_decide _); auto.
    + rewrite bool_decide_eq_true_2 by reflexivity. auto.
  - intros Hd He. apply chooseChannelForSeverity_empty in He. tauto.
Qed.

(** ** The message *)

Lemma payload_key_ne (k key : string) : k ∉ payload_keys -> key ∈ payload_keys -> k <> key.
Proof. intros Hk Hin ->. contradiction. Qed.

Lemma message_of_agreeing (p1 p2 : gmap string any) :
  (forall k, k ∈ payload_keys -> p1 !! k = p2 !! k) ->
  severityOf p1 = severityOf p2 /\ messageOf ext p1 = messageOf ext p2.
Proof.
  intros H.
  assert (Hs : p1 !! "severity" = p2 !! "severity")
    by (apply H; unfold payload_keys; rewrite !elem_of_cons; auto).
  assert (Hl : p1 !! "logName" = p2 !! "logName")
    by (apply H; unfold payload_keys; rewrite !elem_of_cons; auto).
  assert (Ht : p1 !! "textPayload" = p2 !! "textPayload")
    by (apply H; unfold payload_keys; rewrite !elem_of_cons; auto).
  assert (Hj : p1 !! "jsonPayload" = p2 !! "jsonPayload")
    by (apply H; unfold payload_keys; rewrite !elem_of_cons; auto 6).
  unfold messageOf, severityOf, index. now rewrite Hs, Hl, Ht, Hj.
Qed.

(** X10. The severity and the message depend on four keys of the payload
    only: two payloads that agree on [severity], [logName], [textPayload]
    and [jsonPayload] give the same severity and the same message. Adding,
    changing or removing any other field changes neither. *)
Theorem unknown_fields_ignored (payload : gmap string any) :
  (forall other,
      (forall k, k ∈ payload_keys -> payload !! k = other !! k) ->
      severityOf payload = severityOf other
      /\ messageOf ext payload = messageOf ext other)
  /\ (forall k v,
         k ∉ payload_keys ->
         severityOf (<[k:=v]> payload) = severityOf payload
         /\ messageOf ext (<[k:=v]> payload) = messageOf ext payload)
  /\ (forall k,
         k ∉ payload_keys ->
         severityOf (delete k payload) = severityOf payload
         /\ messageOf ext (delete k payload) = messageOf ext payload).
Proof.
  split; [intros other; apply message_of_agreeing|]. split.
  - intros k v Hk. apply message_of_agreeing. intros key Hin.
    apply lookup_insert_ne. now apply payload_key_ne.
  - intros k Hk. apply message_of_agreeing. intros key Hin.
    apply lookup_delete_ne. now apply payload_key_ne.
Qed.

(** X11. The severity the handler works with is never empty: it is the
    payload's [severity] when that is a non-empty string and [DEFAULT] in
    every other case, an empty string included. The message is therefore
    never empty either. *)
Theorem severityOf_nonempty (payload : gmap string any) :
  severityOf payload <> EmptyString
  /\ (severityOf payload = "DEFAULT"
      \/ payload !! "severity" = Some (AString (severityOf payload)))
  /\ (payload !! "severity" = Some (AString EmptyString) ->
      severityOf payload = "DEFAULT")
  /\ (forall s, s <> EmptyString -> payload !! "severity" = Some (AString s) ->
                severityOf payload = s)
  /\ messageOf ext payload <> EmptyString.
Proof.
  unfold severityOf, index.
  split; [|split; [|split; [|split]]].
  - destruct (getString _) as [|c s]; discriminate.
  - destruct (payload !! "severity") as [v|]; [|now left].
    destruct v; try (now left). destruct s; [now left|now right].
  - now intros ->.
  - intros s Hs ->. destruct s; [congruence|reflexivity].
  - rewrite messageOf_parts. discriminate.
Qed.

(** ** Outcomes of the handler *)

Lemma HandleLogAlert_record (m : PubSubMessage) (p : Process) :
  consistent p = true ->
  exists lg r pre sev msg data,
    getLogger ext p = (Returns (Some lg), cache lg p)
    /\ HandleLogAlert ext m p
       = (Returns r, after (cache lg p) (pre ++ [logged lg sev msg data]))
    /\ emits pre = []
    /\ (r = None <-> sev = logging.Info)
    /\ (forall err, r = Some err ->
          (sev = logging.Warning /\ data = None /\ Data m = [])
          \/ (sev = logging.Error /\ data = Some (AString err))).
Proof.
  intros Hc. destruct (HandleLogAlert_run ext m p Hc) as (lg & Hget & Hrun).
  exists lg.
  destruct (Data m) as [|b d] eqn:HD; cbn [length Nat.eqb] in Hrun.
  { exists (Some "empty pubsub data"), [], logging.Warning, "empty pubsub data", None.
    split; [exact Hget|]. split; [exact Hrun|]. split; [reflexivity|].
    split; [split; discriminate|]. intros err _. left. auto. }
  destruct (json_Unmarshal ext (b :: d)) as [payload|e].
  2:{ exists (Some e), [], logging.Error, "failed to parse pubsub json", (Some (AString e)).
      split; [exact Hget|]. split; [exact Hrun|]. split; [reflexivity|].
      split; [split; discriminate|]. intros err [= ->]. right. auto. }
  cbn zeta in Hrun. rewrite SendMessage_run in Hrun.
  cbn [cache isSlackEnabled slackClient trace after] in Hrun. cbn zeta in Hrun.
  set (channelID := chooseChannelForSeverity ext (environ p) (severityOf payload)) in *.
  set (message := messageOf ext payload) in *.
  destruct (isSlackEnabled p) eqn:En; cbn [negb] in Hrun.
  2:{ rewrite after_after in Hrun.
      eexists _, _, logging.Error, _, _.
      split; [exact Hget|]. split; [exact Hrun|]. split; [reflexivity|].
      split; [split; discriminate|]. intros err [= <-]. right. auto. }
  destruct (string_nonempty channelID); cbn [negb] in Hrun.
  2:{ rewrite after_after in Hrun.
      eexists _, _, logging.Error, _, _.
      split; [exact Hget|]. split; [exact Hrun|]. split; [reflexivity|].
      split; [split; discriminate|]. intros err [= <-]. right. auto. }
  destruct (consistent_client p Hc En) as [c Hcl]. rewrite Hcl in Hrun.
  destruct (slack_PostMessage ext _ c channelID message) as [ts|e];
    rewrite after_after in Hrun.
  - eexists _, _, logging.Info, _, _.
    split; [exact Hget|]. split; [exact Hrun|]. split; [reflexivity|].
    split; [split; reflexivity|]. discriminate.
  - eexists _, _, logging.Error, _, _.
    split; [exact Hget|]. split; [exact Hrun|]. split; [reflexivity|].
    split; [split; discriminate|]. intros err [= <-]. right. auto.
Qed.


(** X13. The handler returns nil exactly when the payload is not empty and
    decodes, Slack is enabled, a channel resolves and the web API accepts
    the post of the message to that channel. *)
Theorem HandleLogAlert_nil_iff (m : PubSubMessage) (p : Process) :
  consistent p = true ->
  fst (HandleLogAlert ext m p) = Returns None
  <-> Data m <> []
      /\ exists payload c ts,
          json_Unmarshal ext (Data m) = Ok payload
          /\ isSlackEnabled p = true
          /\ slackClient p = Some c
          /\ chooseChannelForSeverity ext (environ p) (severityOf payload) <> EmptyString
          /\ slack_PostMessage ext
               (trace p ++ [SendMessageCall
                              (chooseChannelForSeverity ext (environ p) (severityOf payload))
                              (messageOf ext payload)])%list
               c (chooseChannelForSeverity ext (environ p) (severityOf payload))
               (messageOf ext payload) = Ok ts.
Proof.
  intros Hc. destruct (HandleLogAlert_run ext m p Hc) as (lg & _ & Hrun).
  rewrite Hrun. clear Hrun.
  destruct (Data m) as [|b d] eqn:HD; cbn [length Nat.eqb].
  { cbn [fst]. split; [discriminate|]. intros [H _]. congruence. }
  destruct (json_Unmarshal ext (b :: d)) as [payload|e].
  2:{ cbn [fst]. split; [discriminate|]. intros (_ & pl & c & ts & H & _). discriminate. }
  cbn zeta. rewrite SendMessage_run. cbn zeta.
  cbn [cache isSlackEnabled slackClient trace after].
  destruct (isSlackEnabled p) eqn:En; cbn [negb].
  2:{ cbn [fst]. split; [discriminate|].
      intros (_ & pl & c & ts & _ & H & _). discriminate. }
  destruct (string_nonempty
              (chooseChannelForSeverity ext (environ p) (severityOf payload)))
    eqn:Hne; cbn [negb].
  2:{ cbn [fst]. split; [discriminate|].
      intros (_ & pl & c & ts & [= <-] & _ & _ & H & _).
      apply string_nonempty_true in H. congruence. }
  destruct (consistent_client p Hc En) as [c Hcl]. rewrite Hcl.
  destruct (slack_PostMessage ext _ c _ (messageOf ext payload)) as [ts|e] eqn:Hpost;
    cbn [fst].
  - split; [intros _|reflexivity]. split; [discriminate|].
    exists payload, c, ts. apply string_nonempty_true in Hne. auto.
  - split; [discriminate|].
    intros (_ & pl & c' & ts & [= <-] & _ & [= <-] & _ & Hp).
    rewrite Hpost in Hp. discriminate.
Qed.

(** X14. While Slack is disabled the handler never succeeds: every run
    returns an error, whatever the payload, and requests no post. *)
Theorem HandleLogAlert_disabled (m : PubSubMessage) (p : Process) :
  consistent p = true ->
  isSlackEnabled p = false ->
  exists err q,
    HandleLogAlert ext m p = (Returns (Some err), q)
    /\ posts (trace q) = posts (trace p)
    /\ isSlackEnabled q = false.
Proof.
  intros Hc Hdis.
  destruct (HandleLogAlert_shape ext m p Hc) as (res & lg' & evs & _ & Hshape & _ & Hp).
  assert (Hreq : requested ext m p = []).
  { unfold requested. rewrite Hdis. cbn [andb].
    induction (attempted ext m p) as [|[ch ms] l IH]; [reflexivity|exact IH]. }
  destruct res as [err|].
  - exists err. eexists. split; [exact Hshape|].
    cbn [after cache trace isSlackEnabled]. rewrite posts_app, Hp, Hreq, app_nil_r. auto.
  - exfalso.
    destruct (HandleLogAlert_run ext m p Hc) as (lg2 & _ & Hr).
    rewrite Hshape in Hr.
    destruct (Nat.eqb (length (Data m)) 0); [discriminate|].
    destruct (json_Unmarshal ext (Data m)); [|discriminate].
    cbn zeta in Hr. rewrite SendMessage_run in Hr. cbn zeta in Hr.
    cbn [cache isSlackEnabled] in Hr. rewrite Hdis in Hr. cbn [negb] in Hr.
    discriminate.
Qed.

(** X15. With Slack enabled and a default channel configured, no alert is
    dropped for want of a channel: every payload that decodes is posted
    exactly once, to a non-empty channel, with the message built from it. *)
Theorem HandleLogAlert_posts_once (m : PubSubMessage) (p : Process)
    (payload : gmap string any) :
  consistent p = true ->
  isSlackEnabled p = true ->
  default_destination (environ p) <> EmptyString ->
  Data m <> [] ->
  json_Unmarshal ext (Data m) = Ok payload ->
  exists c res q,
    slackClient p = Some c
    /\ HandleLogAlert ext m p = (Returns res, q)
    /\ chooseChannelForSeverity ext (environ p) (severityOf payload) <> EmptyString
    /\ posts (trace q)
       = (posts (trace p)
          ++ [ (c, chooseChannelForSeverity ext (environ p) (severityOf payload),
                messageOf ext payload) ])%list.
Proof.
  intros Hc En Hdef HD Hjson.
  destruct (consistent_client p Hc En) as [c Hcl].
  destruct (HandleLogAlert_shape ext m p Hc) as (res & lg & evs & _ & Hrun & _ & Hp).
  assert (Hne : chooseChannelForSeverity ext (environ p) (severityOf payload)
                <> EmptyString).
  { intros He. apply chooseChannelForSeverity_empty in He. tauto. }
  exists c, res. eexists. split; [exact Hcl|]. split; [exact Hrun|]. split; [exact Hne|].
  cbn [after cache trace]. rewrite posts_app, Hp.
  unfold requested, attempted. rewrite (nonempty_length _ HD), Hjson.
  cbn [mbind list_bind mapM flat_map app]. rewrite En, Hcl.
  apply string_nonempty_true in Hne. rewrite Hne. reflexivity.
Qed.

(** ** One logger per process *)

Lemma call_consistent (c : Call) (p : Process) :
  consistent p = true -> consistent (call ext c p) = true.
Proof.
  intros Hc. destruct c as [channelID message|m]; unfold call.
  - destruct (SendMessage_after channelID message p) as (o & evs & -> & _).
    cbn [snd]. now rewrite consistent_after.
  - destruct (HandleLogAlert_shape ext m p Hc) as (res & lg & evs & _ & -> & _).
    cbn [snd]. rewrite consistent_after. now apply consistent_cache.
Qed.

Lemma call_one_logger (c : Call) (p : Process) :
  consistent p = true ->
  (loggerInitOnce p = false -> emits (trace p) = []) ->
  (forall lg, appLogger p = Some lg ->
     forall to r, (to, r) ∈ emits (trace p) ->
       exists sev msg data, Emit to r = logged lg sev msg data) ->
  (loggerInitOnce (call ext c p) = false -> emits (trace (call ext c p)) = [])
  /\ (forall lg, appLogger (call ext c p) = Some lg ->
        forall to r, (to, r) ∈ emits (trace (call ext c p)) ->
          exists sev msg data, Emit to r = logged lg sev msg data).
Proof.
  intros Hc Hnone Hall. destruct c as [channelID message|m]; unfold call.
  - destruct (SendMessage_after channelID message p) as (o & evs & -> & _ & He & _).
    cbn [snd after loggerInitOnce appLogger trace].
    rewrite emits_app, He, app_nil_r. auto.
  - destruct (HandleLogAlert_record m p Hc)
      as (lg & r & pre & sev & msg & data & Hget & -> & Hpre & _).
    cbn [snd after cache loggerInitOnce appLogger trace].
    split; [discriminate|].
    intros lg' [= <-] to rec Hin.
    rewrite !emits_app, Hpre in Hin. cbn in Hin.
    apply elem_of_app in Hin as [Hin|Hin].
    + destruct (loggerInitOnce p) eqn:Once.
      * rewrite getLogger_eq, Once in Hget.
        apply (Hall lg); [congruence|exact Hin].
      * rewrite (Hnone eq_refl) in Hin. now apply elem_of_nil in Hin.
    + apply elem_of_cons in Hin as [[= -> ->]|Hin]; [|now apply elem_of_nil in Hin].
      exists sev, msg, data. reflexivity.
Qed.

Lemma run_one_logger (calls : list Call) (p : Process) :
  consistent p = true ->
  (loggerInitOnce p = false -> emits (trace p) = []) ->
  (forall lg, appLogger p = Some lg ->
     forall to r, (to, r) ∈ emits (trace p) ->
       exists sev msg data, Emit to r = logged lg sev msg data) ->
  consistent (run ext calls p) = true
  /\ (loggerInitOnce (run ext calls p) = false -> emits (trace (run ext calls p)) = [])
  /\ (forall lg, appLogger (run ext calls p) = Some lg ->
        forall to r, (to, r) ∈ emits (trace (run ext calls p)) ->
          exists sev msg data, Emit to r = logged lg sev msg data).
Proof.
  revert p. induction calls as [|c calls IH]; intros p Hc Hnone Hall; [cbn; auto|].
  change (run ext (c :: calls) p) with (run ext calls (call ext c p)).
  destruct (call_one_logger c p Hc Hnone Hall) as [Hnone' Hall'].
  apply IH; [now apply call_consistent|exact Hnone'|exact Hall'].
Qed.

(** X16. From [init] on, through any sequence of calls, no dereferenced
    package variable is nil, and every record the process has handed to a
    log sink was written through the one cached logger: same sink, same log
    name, same labels. A process that logged something has its cache
    filled. *)
Theorem one_logger_per_process (env : gmap string string) (calls : list Call) :
  let p := run ext calls (boot ext env) in
  consistent p = true
  /\ (emits (trace p) <> [] -> exists lg, appLogger p = Some lg)
  /\ (forall lg to r,
         appLogger p = Some lg -> (to, r) ∈ emits (trace p) ->
         to = logger.sink lg
         /\ logger.recordLogName r = logger.logName (logger.config lg)
         /\ logger.labels r = logger.commonLabels (logger.config lg)).
Proof.
  cbn zeta.
  destruct (boot_shape env) as [line Hboot].
  assert (Hemits : emits (trace (boot ext env)) = []).
  { rewrite Hboot. cbn [trace]. rewrite emits_app.
    now destruct (string_nonempty _ && HasPrefix _ _). }
  destruct (run_one_logger calls (boot ext env)) as (Hc & Hnone & Hall).
  - apply boot_consistent.
  - intros _. exact Hemits.
  - intros lg _ to r Hin. rewrite Hemits in Hin. now apply elem_of_nil in Hin.
  - split; [exact Hc|]. split.
    + intros Hne. destruct (loggerInitOnce (run ext calls (boot ext env))) eqn:Once.
      * unfold consistent in Hc. rewrite Once in Hc. cbn [negb orb] in Hc.
        apply andb_prop in Hc as [_ Hc]. apply bool_decide_eq_true in Hc.
        destruct Hc as [lg Hlg]. eauto.
      * now destruct Hne; apply Hnone.
    + intros lg to r Hlg Hin.
      destruct (Hall lg Hlg to r Hin) as (sev & msg & data & [= -> ->]).
      auto.
Qed.

End Further.

(** ** The further properties at work *)

Lemma getLogger_idempotent_witness :
  loggerInitOnce (snd (getLogger w_ok p_ok)) = true
  /\ snd (getLogger w_ok (snd (getLogger w_ok p_ok))) = snd (getLogger w_ok p_ok).
Proof.
  assert (H : loggerInitOnce (snd (getLogger w_ok p_ok)) = true)
    by (vm_compute; reflexivity).
  split; [exact H|].
  destruct (getLogger_idempotent w_ok (snd (getLogger w_ok p_ok)))
    as (_ & _ & _ & _ & _ & _ & _ & Hsame).
  exact (Hsame H).
Defined.

Lemma SendMessage_ok_iff_witness :
  fst (SendMessage w_ok "C1" "ping" p_ok) = Returns (Ok "1700000000.000100").
Proof.
  apply (proj2 (SendMessage_ok_iff w_ok "C1" "ping" "1700000000.000100" p_ok)).
  split; [vm_compute; reflexivity|]. split; [discriminate|].
  exists client1. split; [vm_compute; reflexivity|].
  split; [reflexivity|]. vm_compute. reflexivity.
Defined.

Lemma init_enables_iff_witness :
  isSlackEnabled p_ok = true /\ slackClient p_ok = Some client1.
Proof.
  assert (H : isSlackEnabled p_ok = true) by (vm_compute; reflexivity).
  split; [exact H|].
  destruct (init_enables_iff w_ok env1) as (_ & _ & Hclient & _).
  exact (Hclient H).
Defined.

Lemma configuration_is_fixed_witness :
  loggerInitOnce (run w_ok [CallHandleLogAlert scenario] p_ok) = true
  /\ appLogger (run w_ok session (run w_ok [CallHandleLogAlert scenario] p_ok))
     = appLogger (run w_ok [CallHandleLogAlert scenario] p_ok).
Proof.
  assert (H : loggerInitOnce (run w_ok [CallHandleLogAlert scenario] p_ok) = true)
    by (vm_compute; reflexivity).
  split; [exact H|].
  destruct (configuration_is_fixed w_ok session
              (run w_ok [CallHandleLogAlert scenario] p_ok)) as (_ & _ & _ & Hlog).
  exact (proj2 (Hlog H)).
Defined.

Lemma chooseChannelForSeverity_resolves_witness :
  default_destination env3 <> EmptyString
  /\ chooseChannelForSeverity w_ok env3 "debug" <> EmptyString.
Proof.
  assert (H : default_destination env3 <> EmptyString) by (vm_compute; discriminate).
  split; [exact H|].
  destruct (chooseChannelForSeverity_resolves w_ok env3 "debug") as (_ & _ & Hres).
  exact (Hres H).
Defined.

Lemma unknown_fields_ignored_witness :
  ("insertId" ∉ payload_keys)
  /\ messageOf w_ok (<["insertId" := AString "abc"]> scenario_payload)
     = messageOf w_ok scenario_payload.
Proof.
  assert (H : "insertId" ∉ payload_keys).
  { unfold payload_keys. rewrite !elem_of_cons, elem_of_nil. intuition discriminate. }
  split; [exact H|].
  destruct (unknown_fields_ignored w_ok scenario_payload) as (_ & Hins & _).
  exact (proj2 (Hins "insertId" (AString "abc") H)).
Defined.

Lemma severityOf_nonempty_witness :
  blank_severity !! "severity" = Some (AString EmptyString)
  /\ severityOf blank_severity = "DEFAULT".
Proof.
  assert (H : blank_severity !! "severity" = Some (AString EmptyString))
    by (vm_compute; reflexivity).
  split; [exact H|].
  destruct (severityOf_nonempty w_ok blank_severity) as (_ & _ & Hblank & _).
  exact (Hblank H).
Defined.


Lemma HandleLogAlert_nil_iff_witness :
  consistent p_ok = true
  /\ fst (HandleLogAlert w_ok scenario p_ok) = Returns None.
Proof.
  assert (Hc : consistent p_ok = true) by (vm_compute; reflexivity).
  split; [exact Hc|].
  apply (proj2 (HandleLogAlert_nil_iff w_ok scenario p_ok Hc)).
  split; [discriminate|].
  exists scenario_payload, client1, "1700000000.000100".
  split; [vm_compute; reflexivity|]. split; [vm_compute; reflexivity|].
  split; [vm_compute; reflexivity|]. split; [vm_compute; discriminate|].
  reflexivity.
Defined.

Lemma HandleLogAlert_disabled_witness :
  consistent p_disabled = true
  /\ isSlackEnabled p_disabled = false
  /\ exists err q,
      HandleLogAlert w_ok scenario p_disabled = (Returns (Some err), q)
      /\ posts (trace q) = posts (trace p_disabled)
      /\ isSlackEnabled q = false.
Proof.
  assert (Hc : consistent p_disabled = true) by (vm_compute; reflexivity).
  assert (Hd : isSlackEnabled p_disabled = false) by (vm_compute; reflexivity).
  split; [exact Hc|]. split; [exact Hd|].
  exact (HandleLogAlert_disabled w_ok scenario p_disabled Hc Hd).
Defined.

Lemma HandleLogAlert_posts_once_witness :
  exists c res q,
    slackClient p_all = Some c
    /\ HandleLogAlert w_ok scenario p_all = (Returns res, q)
    /\ chooseChannelForSeverity w_ok (environ p_all) (severityOf scenario_payload)
       <> EmptyString
    /\ posts (trace q)
       = (posts (trace p_all)
          ++ [ (c, chooseChannelForSeverity w_ok (environ p_all) (severityOf scenario_payload),
                messageOf w_ok scenario_payload) ])%list.
Proof.
  apply (HandleLogAlert_posts_once w_ok scenario p_all scenario_payload).
  - vm_compute. reflexivity.
  - vm_compute. reflexivity.
  - vm_compute. discriminate.
  - discriminate.
  - vm_compute. reflexivity.
Defined.

Lemma one_logger_per_process_witness :
  emits (trace (run w_ok session (boot w_ok env1))) <> []
  /\ exists lg, appLogger (run w_ok session (boot w_ok env1)) = Some lg.
Proof.
  assert (H : emits (trace (run w_ok session (boot w_ok env1))) <> [])
    by (vm_compute; discriminate).
  split; [exact H|].
  destruct (one_logger_per_process w_ok env1 session) as (_ & Hsome & _).
  exact (Hsome H).
Defined.
